(** * The VPC resources of the IBM Cloud Terraform provider

    A shallow embedding of three parts of package [vpc]:

    - the data source of the instance group managers
      ([data_source_ibm_is_instance_group_managers.go]),
    - the network ACL resource ([resource_ibm_is_networkacls.go]),
    - the resource that attaches a floating IP to a network interface
      of a bare metal server.

    Go values of type [interface{}] are an inductive type with the
    type assertions written out, the vendor SDK is an interface whose
    answers depend on the calls made so far, and every function that
    talks to it is a computation in a state monad that records the
    calls in the order they are issued. *)

From Stdlib Require Import ZArith String Ascii List Lia.
From stdpp Require Import base option gmap strings list.

#[local] Set Warnings "-register-all".
#[local] Open Scope Z_scope.

(** ** Go values *)

Module Go.

(** A value of type [interface{}] as the schema framework hands it
    out: [nil], a string, an int, a bool, a [[]interface{}] or a
    [map[string]interface{}]. *)
Inductive Value : Type :=
| VNil
| VString (s : string)
| VInt (z : Z)
| VBool (b : bool)
| VList (l : list Value)
| VMap (m : gmap string Value).

(** Go's [error] interface with the dynamic types that occur: errors
    made by [fmt.Errorf] or by the SDK, and the two errors of the
    state poller. *)
Inductive error : Type :=
| ErrorString (s : string)
| TimeoutError (LastState : string) (ExpectedState : list string)
| UnexpectedStateError (State : string) (ExpectedState : list string).

Definition Error (e : error) : string :=
  match e with
  | ErrorString s => s
  | TimeoutError last _ => "timeout while waiting for state to become ready (last state: " +:+ last +:+ ")"
  | UnexpectedStateError st _ => "unexpected state " +:+ st
  end.

Definition Errorf (s : string) : error := ErrorString s.

Definition newline : string := String (ascii_of_nat 10) EmptyString.

(** What a Go function evaluates to: it returns, it panics (a failed
    type assertion, a nil dereference), or the model's fuel for an
    unbounded [for] loop ran out. *)
Inductive Result (A : Type) : Type :=
| Ret (a : A)
| Panic (msg : string)
| OutOfFuel.
Arguments Ret {A} a.
Arguments Panic {A} msg.
Arguments OutOfFuel {A}.

Definition bindR {A B} (r : Result A) (k : A -> Result B) : Result B :=
  match r with
  | Ret a => k a
  | Panic msg => Panic msg
  | OutOfFuel => OutOfFuel
  end.

(** Type assertions [v.(T)]: they panic on any other dynamic type. *)
Definition asString (v : Value) : Result string :=
  match v with
  | VString s => Ret s
  | _ => Panic "interface conversion: interface {} is not string"
  end.

Definition asInt (v : Value) : Result Z :=
  match v with
  | VInt z => Ret z
  | _ => Panic "interface conversion: interface {} is not int"
  end.

Definition asList (v : Value) : Result (list Value) :=
  match v with
  | VList l => Ret l
  | _ => Panic "interface conversion: interface {} is not []interface {}"
  end.

Definition asMap (v : Value) : Result (gmap string Value) :=
  match v with
  | VMap m => Ret m
  | _ => Panic "interface conversion: interface {} is not map[string]interface {}"
  end.

(** [m[k]] on a [map[string]interface{}]: [nil] for an absent key. *)
Definition index (m : gmap string Value) (k : string) : Value :=
  match m !! k with
  | Some v => v
  | None => VNil
  end.

(** [*p] on a pointer the SDK may leave nil. *)
Definition deref {A} (p : option A) : Result A :=
  match p with
  | Some a => Ret a
  | None => Panic "invalid memory address or nil pointer dereference"
  end.

(** The zero value test behind [d.GetOk]. *)
Definition isZero (v : Value) : bool :=
  match v with
  | VNil => true
  | VString s => if decide (s = EmptyString) then true else false
  | VInt z => (z =? 0)
  | VBool b => negb b
  | VList l => match l with [] => true | _ => false end
  | VMap m => if decide (m = ∅) then true else false
  end.

(** [strings.Split(s, sep)] for a separator of one byte: the
    substrings between the separators, one more than there are
    separators, so [[""]] for the empty string. *)
Fixpoint Split (s : string) (sep : ascii) : list string :=
  match s with
  | EmptyString => [EmptyString]
  | String c s' =>
      if Ascii.eqb c sep then EmptyString :: Split s' sep
      else match Split s' sep with
           | seg :: rest => String c seg :: rest
           | [] => [String c EmptyString]
           end
  end.

(** [strings.Contains(s, sep)] for a separator of one byte. *)
Fixpoint Contains (s : string) (sep : ascii) : bool :=
  match s with
  | EmptyString => false
  | String c s' => Ascii.eqb c sep || Contains s' sep
  end.

Definition lower (c : ascii) : ascii :=
  let n := nat_of_ascii c in
  if ((65 <=? n) && (n <=? 90))%nat then ascii_of_nat (n + 32) else c.

(** [strings.ToLower] on the ASCII letters; Go maps the upper case
    letters outside ASCII as well. *)
Fixpoint ToLower (s : string) : string :=
  match s with
  | EmptyString => EmptyString
  | String c s' => String (lower c) (ToLower s')
  end.

End Go.
Export Go.

Declare Scope go_scope.
Delimit Scope go_scope with go.
Notation "x <~ c ;; k" := (bindR c (fun x => k))
  (at level 20, c at level 99, k at level 200, only parsing) : go_scope.
#[local] Open Scope go_scope.

(** ** The vendor SDK: requests, replies, models *)

(** [core.DetailedResponse]: the HTTP status and the text [%s] prints. *)
Record DetailedResponse := {
  StatusCode : Z;
  ResponseText : string
}.

(** How [%s] prints a response. *)
Definition fmtResponse (response : option DetailedResponse) : string :=
  match response with
  | Some r => ResponseText r
  | None => "<nil>"
  end.

(** The [Next] reference of a collection page. *)
Record CollectionNext := { Href : string }.

Module InstanceGroupManagerAction.
Record t := {
  ID : option string;
  Name : option string;
  ResourceType : option string
}.
End InstanceGroupManagerAction.

Module InstanceGroupManager.
Record t := {
  ID : string;
  Name : string;
  ManagerType : string;
  AggregationWindow : option Z;
  Cooldown : option Z;
  MaxMembershipCount : option Z;
  MinMembershipCount : option Z;
  Policies : list string;
  Actions : option (list InstanceGroupManagerAction.t)
}.
End InstanceGroupManager.

Module ListInstanceGroupManagersOptions.
Record t := {
  InstanceGroupID : string;
  Start : option string
}.
End ListInstanceGroupManagersOptions.

Module InstanceGroupManagerCollection.
Record t := {
  Managers : list InstanceGroupManager.t;
  Next : option CollectionNext
}.
End InstanceGroupManagerCollection.

(** The fields the three kinds of network ACL rule share. *)
Module NetworkACLRule.
Record t := {
  ID : string;
  Name : string;
  Action : string;
  IPVersion : string;
  Source : string;
  Destination : string;
  Direction : string
}.
End NetworkACLRule.

(** [vpcv1.NetworkACLRuleItemIntf]: the SDK decodes a rule into one of
    three structs, told apart in the source by [reflect.TypeOf]. *)
Inductive NetworkACLRuleItem : Type :=
| NetworkACLRuleItemNetworkACLRuleProtocolIcmp
    (rule : NetworkACLRule.t) (Code Type_ : option Z)
| NetworkACLRuleItemNetworkACLRuleProtocolTcpudp
    (rule : NetworkACLRule.t) (Protocol : string)
    (SourcePortMax SourcePortMin DestinationPortMax DestinationPortMin : option Z)
| NetworkACLRuleItemNetworkACLRuleProtocolAll
    (rule : NetworkACLRule.t).

Module ResourceGroupReference.
Record t := { ID : string; Name : string }.
End ResourceGroupReference.

Module NetworkACL.
Record t := {
  ID : string;
  CRN : string;
  Name : option string;
  VPC : option string;
  ResourceGroup : option ResourceGroupReference.t;
  Rules : list NetworkACLRuleItem;
  Subnets : list string
}.
End NetworkACL.

Module NetworkACLPrototype.
Record t := {
  VPC : string;
  Name : option string;
  ResourceGroup : option string
}.
End NetworkACLPrototype.

Module UpdateNetworkACLOptions.
Record t := {
  ID : string;
  NetworkACLPatch : gmap string Value
}.
End UpdateNetworkACLOptions.

Module ListNetworkACLRulesOptions.
Record t := {
  NetworkACLID : string;
  Start : option string
}.
End ListNetworkACLRulesOptions.

Module NetworkACLRuleCollection.
Record t := {
  Rules : list NetworkACLRuleItem;
  Next : option CollectionNext
}.
End NetworkACLRuleCollection.

Module DeleteNetworkACLRuleOptions.
Record t := {
  NetworkACLID : string;
  ID : option string
}.
End DeleteNetworkACLRuleOptions.

Module NetworkACLRulePrototype.
Record t := {
  Action : string;
  Destination : string;
  Direction : string;
  Source : string;
  Name : string;
  Before : option string;
  Protocol : option string;
  Type_ : option Z;
  Code : option Z;
  DestinationPortMin : option Z;
  DestinationPortMax : option Z;
  SourcePortMin : option Z;
  SourcePortMax : option Z
}.
End NetworkACLRulePrototype.

Module CreateNetworkACLRuleOptions.
Record t := {
  NetworkACLID : string;
  NetworkACLRulePrototype : NetworkACLRulePrototype.t
}.
End CreateNetworkACLRuleOptions.

(** The interface value [fip.Target]: the type assertion of the
    source holds for the generic target struct only. *)
Inductive FloatingIPTargetIntf : Type :=
| FloatingIPTarget (ID : option string)
| FloatingIPTargetOther.

Module FloatingIP.
Record t := {
  ID : string;
  Name : string;
  Address : string;
  Status : string;
  Zone : string;
  CRN : string;
  Target : option FloatingIPTargetIntf
}.
End FloatingIP.

Module GetBareMetalServerNetworkInterfaceFloatingIPOptions.
Record t := {
  BareMetalServerID : string;
  NetworkInterfaceID : string;
  ID : string
}.
End GetBareMetalServerNetworkInterfaceFloatingIPOptions.

(** The two kinds of tag of the global tagging helpers. *)
Inductive TagType : Type := isUserTagType | isAccessTagType.

(** Every call that leaves the process: the methods of [*vpcv1.VpcV1]
    the three files use, the two tagging helpers of package [flex],
    and the wall clock. *)
Inductive Request : Type :=
| ListInstanceGroupManagersWithContext (o : ListInstanceGroupManagersOptions.t)
| CreateNetworkACLWithContext (o : NetworkACLPrototype.t)
| UpdateNetworkACLWithContext (o : UpdateNetworkACLOptions.t)
| GetNetworkACLWithContext (ID : string)
| ListNetworkACLRules (o : ListNetworkACLRulesOptions.t)
| DeleteNetworkACLRule (o : DeleteNetworkACLRuleOptions.t)
| CreateNetworkACLRule (o : CreateNetworkACLRuleOptions.t)
| GetBareMetalServerNetworkInterfaceFloatingIPWithContext
    (o : GetBareMetalServerNetworkInterfaceFloatingIPOptions.t)
| GetBareMetalServerNetworkInterfaceFloatingIP
    (o : GetBareMetalServerNetworkInterfaceFloatingIPOptions.t)
| UpdateGlobalTagsUsingCRN (oldList newList : Value) (crn : string) (tagType : TagType)
| GetGlobalTagsUsingCRN (crn : string) (tagType : TagType)
| TimeNowUTC.

(** The Go triple [(result, response, err)] of an SDK method. *)
Definition SdkReply (A : Type) : Type :=
  (option A * option DetailedResponse * option error)%type.

Definition Reply (r : Request) : Type :=
  match r with
  | ListInstanceGroupManagersWithContext _ => SdkReply InstanceGroupManagerCollection.t
  | CreateNetworkACLWithContext _ => SdkReply NetworkACL.t
  | UpdateNetworkACLWithContext _ => SdkReply NetworkACL.t
  | GetNetworkACLWithContext _ => SdkReply NetworkACL.t
  | ListNetworkACLRules _ => SdkReply NetworkACLRuleCollection.t
  | DeleteNetworkACLRule _ => (option DetailedResponse * option error)%type
  | CreateNetworkACLRule _ => SdkReply NetworkACLRuleItem
  | GetBareMetalServerNetworkInterfaceFloatingIPWithContext _ => SdkReply FloatingIP.t
  | GetBareMetalServerNetworkInterfaceFloatingIP _ => SdkReply FloatingIP.t
  | UpdateGlobalTagsUsingCRN _ _ _ _ => option error
  | GetGlobalTagsUsingCRN _ _ => (Value * option error)%type
  | TimeNowUTC => string
  end.

(** What the process does that the outside can see, in order. *)
Inductive Event : Type :=
| EvCall (r : Request)
| EvSleep (seconds : nat).

(** The collaborators of the three files: the remote side, which
    answers a request knowing everything that happened before it;
    [flex.GetNext], which reads the cursor out of a page's [Next]
    reference (the empty string: no further page); and the attribute
    names declared in other files of the package. *)
Class Collaborators := {
  sdk : list Event -> forall r : Request, Reply r;
  GetNext : option CollectionNext -> string;
  ResourceControllerURL : string;
  ResourceName : string;
  ResourceGroupName : string;
  floatingIPName : string;
  floatingIPAddress : string;
  floatingIPStatus : string;
  floatingIPZone : string;
  floatingIPTarget : string;
  floatingIPCRN : string
}.

(** ** The schema framework *)

(** [*schema.ResourceData]: the identifier, the prior state and the
    current values of the attributes, the attributes the plan changes
    ([d.HasChange]), and the schema as far as the code depends on it:
    the zero value [d.Get] returns for an attribute that is not set
    and the values [d.Set] accepts for it. *)
Record ResourceData := {
  rd_Id : string;
  rd_state : gmap string Value;
  rd_values : gmap string Value;
  rd_changed : gset string;
  rd_zero : string -> Value;
  rd_accepts : string -> Value -> bool
}.

(** [meta] and the process environment: the error of [vpcClient(meta)]
    (nil when a session is returned), the variable [IC_ENV_TAGS], and
    the result of [flex.GetBaseController(meta)]. *)
Record Meta := {
  vpcClient : option error;
  IC_ENV_TAGS : string;
  GetBaseController : (string * option error)%type
}.

(** [flex.TerraformProblem] as built by [flex.TerraformErrorf] and
    [flex.DiscriminatedTerraformErrorf]. *)
Record TerraformProblem := {
  tf_err : option error;
  tf_message : string;
  tf_resource : string;
  tf_operation : string;
  tf_discriminator : string
}.

Definition TerraformErrorf (err : option error) (message resource operation : string)
  : TerraformProblem :=
  {| tf_err := err; tf_message := message; tf_resource := resource;
     tf_operation := operation; tf_discriminator := "" |}.

Definition DiscriminatedTerraformErrorf (err : option error)
  (message resource operation discriminator : string) : TerraformProblem :=
  {| tf_err := err; tf_message := message; tf_resource := resource;
     tf_operation := operation; tf_discriminator := discriminator |}.

(** [diag.Diagnostics]: [nil] when nothing went wrong. *)
Definition Diagnostics : Type := list TerraformProblem.

Definition GetDiag (tfErr : TerraformProblem) : Diagnostics := [tfErr].

(** ** Computations *)

(** The state a function of the provider runs in: what happened so
    far, the resource data [d] every function shares by pointer, and
    whether the channel of the availability poller has been closed. *)
Record World := {
  trace : list Event;
  data : ResourceData;
  communicator_closed : bool
}.

Definition M (A : Type) : Type := World -> Result A * World.

Definition ret {A} (a : A) : M A := fun w => (Ret a, w).

Definition bindM {A B} (c : M A) (k : A -> M B) : M B :=
  fun w =>
    match c w with
    | (Ret a, w') => k a w'
    | (Panic msg, w') => (Panic msg, w')
    | (OutOfFuel, w') => (OutOfFuel, w')
    end.

Definition lift {A} (r : Result A) : M A := fun w => (r, w).

Definition panic {A} (msg : string) : M A := lift (Panic msg).

Definition outOfFuel {A} : M A := lift OutOfFuel.

Notation "x <- c ;; k" := (bindM c (fun x => k))
  (at level 20, c at level 99, k at level 200, only parsing) : go_scope.
Notation "' p <- c ;; k" := (bindM c (fun p => k))
  (at level 20, p pattern, c at level 99, k at level 200, only parsing) : go_scope.

Definition record (e : Event) (w : World) : World :=
  {| trace := trace w ++ [e]; data := data w;
     communicator_closed := communicator_closed w |}.

Definition withData (d : ResourceData) (w : World) : World :=
  {| trace := trace w; data := d;
     communicator_closed := communicator_closed w |}.



(** [d.Id()], [d.SetId(v)] *)
Definition d_Id : M string := fun w => (Ret (rd_Id (data w)), w).

Definition d_SetId (v : string) : M unit :=
  fun w =>
    let d := data w in
    (Ret tt,
     withData {| rd_Id := v; rd_state := rd_state d; rd_values := rd_values d;
                 rd_changed := rd_changed d; rd_zero := rd_zero d;
                 rd_accepts := rd_accepts d |} w).

(** [d.Get(key)]: the zero value of the schema when [key] is not set. *)
Definition d_Get (key : string) : M Value :=
  fun w =>
    let d := data w in
    (Ret (match rd_values d !! key with Some v => v | None => rd_zero d key end), w).

(** [d.GetOk(key)]: the value, and whether it is set to something
    other than the zero value. *)
Definition d_GetOk (key : string) : M (Value * bool) :=
  fun w =>
    let d := data w in
    (Ret (match rd_values d !! key with
          | Some v => (v, negb (isZero v))
          | None => (rd_zero d key, false)
          end), w).

(** [d.HasChange(key)], [d.GetChange(key)] *)
Definition d_HasChange (key : string) : M bool :=
  fun w => (Ret (bool_decide (key ∈ rd_changed (data w))), w).

Definition d_GetChange (key : string) : M (Value * Value) :=
  fun w =>
    let d := data w in
    (Ret (match rd_state d !! key with Some v => v | None => rd_zero d key end,
          match rd_values d !! key with Some v => v | None => rd_zero d key end), w).

(** [d.Set(key, value)]: an error when the schema does not accept the
    value. *)
Definition d_Set (key : string) (value : Value) : M (option error) :=
  fun w =>
    let d := data w in
    if rd_accepts d key value then
      (Ret None,
       withData {| rd_Id := rd_Id d; rd_state := rd_state d;
                   rd_values := <[key := value]> (rd_values d);
                   rd_changed := rd_changed d; rd_zero := rd_zero d;
                   rd_accepts := rd_accepts d |} w)
    else (Ret (Some (Errorf (key +:+ ": value does not match the schema"))), w).




(** A pointer to a string stored as an [interface{}]. *)
Definition optString (p : option string) : Value :=
  match p with
  | Some s => VString s
  | None => VNil
  end.

(** [i == nil || reflect.ValueOf(i).IsNil()]: [IsNil] panics on a
    value that is neither a map nor a slice. *)
Definition isNil (i : Value) : Result bool :=
  match i with
  | VNil => Ret true
  | VMap _ | VList _ => Ret false
  | _ => Panic "reflect: call of reflect.Value.IsNil on a non-pointer value"
  end.

Definition nonEmpty {A} (l : list A) : bool := (0 <? length l)%nat.

Section Provider.

Context `{Collaborators}.

(** A call of the SDK: the remote side answers from what happened so
    far, and the call is recorded. *)
Definition call (r : Request) : M (Reply r) :=
  fun w => (Ret (sdk (trace w) r), record (EvCall r) w).

(** *** data_source_ibm_is_instance_group_managers.go *)

(** The options of one fetch: [Start] is set for a non-empty cursor. *)
Definition listInstanceGroupManagerOptions (instanceGroupID start : string)
  : ListInstanceGroupManagersOptions.t :=
  {| ListInstanceGroupManagersOptions.InstanceGroupID := instanceGroupID;
     ListInstanceGroupManagersOptions.Start :=
       if decide (start = "") then None else Some start |}.

(** The loop over the pages (lines 130 to 154); [inr] is the early
    [return] of the diagnostics. *)
Fixpoint dataSourceIBMISInstanceGroupManagersRead_pages (fuel : nat)
  (instanceGroupID start : string) (allrecs : list InstanceGroupManager.t)
  : M (list InstanceGroupManager.t + Diagnostics) :=
  match fuel with
  | O => outOfFuel
  | S fuel =>
      '(instanceGroupManagerCollections, _, err) <-
        call (ListInstanceGroupManagersWithContext
                (listInstanceGroupManagerOptions instanceGroupID start)) ;;
      match err with
      | Some e =>
          let tfErr := TerraformErrorf (Some e)
            ("ListInstanceGroupManagersWithContext failed " +:+ Error e)
            "(Data) ibm_is_instance_group_managers" "read" in
          ret (inr (GetDiag tfErr))
      | None =>
          collection <- lift (deref instanceGroupManagerCollections) ;;
          let start := GetNext (InstanceGroupManagerCollection.Next collection) in
          let allrecs := allrecs ++ InstanceGroupManagerCollection.Managers collection in
          if decide (start = "") then ret (inl allrecs)
          else dataSourceIBMISInstanceGroupManagersRead_pages fuel instanceGroupID start allrecs
      end
  end.

Definition actionToMap (action : InstanceGroupManagerAction.t) : Value :=
  VMap (<["instance_group_manager_action" := optString (InstanceGroupManagerAction.ID action)]>
       (<["instance_group_manager_action_name" := optString (InstanceGroupManagerAction.Name action)]>
       (<["resource_type" := optString (InstanceGroupManagerAction.ResourceType action)]> ∅))).

(** The body of the second loop (lines 157 to 203): one manager
    flattened into the map stored in the state. *)
Definition instanceGroupManagerToMap (instanceGroupID : string)
  (instanceGroupManager : InstanceGroupManager.t) : Result Value :=
  let id := VString (instanceGroupID +:+ "/" +:+ InstanceGroupManager.ID instanceGroupManager) in
  if decide (InstanceGroupManager.ManagerType instanceGroupManager = "scheduled") then
    let manager : gmap string Value :=
      <["id" := id]>
      (<["manager_id" := VString (InstanceGroupManager.ID instanceGroupManager)]>
      (<["name" := VString (InstanceGroupManager.Name instanceGroupManager)]>
      (<["manager_type" := VString (InstanceGroupManager.ManagerType instanceGroupManager)]> ∅))) in
    match InstanceGroupManager.Actions instanceGroupManager with
    | Some actions => Ret (VMap (<["actions" := VList (map actionToMap actions)]> manager))
    | None => Ret (VMap manager)
    end
  else
    aggregationWindow <~ deref (InstanceGroupManager.AggregationWindow instanceGroupManager) ;;
    cooldown <~ deref (InstanceGroupManager.Cooldown instanceGroupManager) ;;
    maxMembershipCount <~ deref (InstanceGroupManager.MaxMembershipCount instanceGroupManager) ;;
    minMembershipCount <~ deref (InstanceGroupManager.MinMembershipCount instanceGroupManager) ;;
    let manager : gmap string Value :=
      <["id" := id]>
      (<["manager_id" := VString (InstanceGroupManager.ID instanceGroupManager)]>
      (<["name" := VString (InstanceGroupManager.Name instanceGroupManager)]>
      (<["aggregation_window" := VInt aggregationWindow]>
      (<["cooldown" := VInt cooldown]>
      (<["max_membership_count" := VInt maxMembershipCount]>
      (<["min_membership_count" := VInt minMembershipCount]>
      (<["manager_type" := VString (InstanceGroupManager.ManagerType instanceGroupManager)]> ∅))))))) in
    let policies := map VString (InstanceGroupManager.Policies instanceGroupManager) in
    Ret (VMap (<["policies" := VList policies]> manager)).

Fixpoint instanceGroupManagersToMaps (instanceGroupID : string)
  (allrecs : list InstanceGroupManager.t) : Result (list Value) :=
  match allrecs with
  | [] => Ret []
  | instanceGroupManager :: rest =>
      manager <~ instanceGroupManagerToMap instanceGroupID instanceGroupManager ;;
      managers <~ instanceGroupManagersToMaps instanceGroupID rest ;;
      Ret (manager :: managers)
  end.

(** [time.Now().UTC().String()] *)
Definition dataSourceIBMISInstanceGroupManagersID : M string := call TimeNowUTC.

Definition dataSourceIBMISInstanceGroupManagersRead (fuel : nat) (meta : Meta)
  : M Diagnostics :=
  match vpcClient meta with
  | Some err =>
      let tfErr := DiscriminatedTerraformErrorf (Some err) (Error err)
        "(Data) ibm_is_instance_group_managers" "read" "initialize-client" in
      ret (GetDiag tfErr)
  | None =>
      v <- d_Get "instance_group" ;;
      instanceGroupID <- lift (asString v) ;;
      r <- dataSourceIBMISInstanceGroupManagersRead_pages fuel instanceGroupID "" [] ;;
      match r with
      | inr diags => ret diags
      | inl allrecs =>
          instanceGroupMnagers <- lift (instanceGroupManagersToMaps instanceGroupID allrecs) ;;
          err <- d_Set "instance_group_managers" (VList instanceGroupMnagers) ;;
          match err with
          | Some e =>
              ret (GetDiag (DiscriminatedTerraformErrorf (Some e)
                     ("Error setting instance_group_managers " +:+ Error e)
                     "(Data) ibm_is_instance_group_managers" "read"
                     "instance_group_managers-set"))
          | None =>
              id <- dataSourceIBMISInstanceGroupManagersID ;;
              _ <- d_SetId id ;;
              ret []
          end
      end
  end.

(** *** resource_ibm_is_networkacls.go *)

Definition isNetworkACLName : string := "name".
Definition isNetworkACLRules : string := "rules".
Definition isNetworkACLSubnets : string := "subnets".
Definition isNetworkACLRuleID : string := "id".
Definition isNetworkACLRuleName : string := "name".
Definition isNetworkACLRuleAction : string := "action".
Definition isNetworkACLRuleIPVersion : string := "ip_version".
Definition isNetworkACLRuleSource : string := "source".
Definition isNetworkACLRuleDestination : string := "destination".
Definition isNetworkACLRuleDirection : string := "direction".
Definition isNetworkACLRuleICMP : string := "icmp".
Definition isNetworkACLRuleICMPCode : string := "code".
Definition isNetworkACLRuleICMPType : string := "type".
Definition isNetworkACLRuleTCP : string := "tcp".
Definition isNetworkACLRuleUDP : string := "udp".
Definition isNetworkACLRulePortMax : string := "port_max".
Definition isNetworkACLRulePortMin : string := "port_min".
Definition isNetworkACLRuleSourcePortMax : string := "source_port_max".
Definition isNetworkACLRuleSourcePortMin : string := "source_port_min".
Definition isNetworkACLVPC : string := "vpc".
Definition isNetworkACLResourceGroup : string := "resource_group".
Definition isNetworkACLTags : string := "tags".
Definition isNetworkACLAccessTags : string := "access_tags".
Definition isNetworkACLCRN : string := "crn".

Definition checkNetworkACLNil (ptr : option Z) : Z :=
  match ptr with
  | None => 0
  | Some v => v
  end.

Definition listNetworkAclRulesOptions (nwaclid start : string)
  : ListNetworkACLRulesOptions.t :=
  {| ListNetworkACLRulesOptions.NetworkACLID := nwaclid;
     ListNetworkACLRulesOptions.Start :=
       if decide (start = "") then None else Some start |}.

(** The first loop of [clearRules] (lines 853 to 871); [inr] is the
    early [return] of the error. *)
Fixpoint clearRules_pages (fuel : nat) (nwaclid start : string)
  (allrecs : list NetworkACLRuleItem) : M (list NetworkACLRuleItem + error) :=
  match fuel with
  | O => outOfFuel
  | S fuel =>
      '(rawrules, response, err) <-
        call (ListNetworkACLRules (listNetworkAclRulesOptions nwaclid start)) ;;
      match err with
      | Some e =>
          ret (inr (Errorf ("[ERROR] Error Listing network ACL rules : " +:+ Error e
                            +:+ newline +:+ fmtResponse response)))
      | None =>
          collection <- lift (deref rawrules) ;;
          let start := GetNext (NetworkACLRuleCollection.Next collection) in
          let allrecs := allrecs ++ NetworkACLRuleCollection.Rules collection in
          if decide (start = "") then ret (inl allrecs)
          else clearRules_pages fuel nwaclid start allrecs
      end
  end.

(** The options of the delete call for one listed rule: the switch on
    the rule's dynamic type copies its ID. *)
Definition deleteNetworkAclRuleOptions (nwaclid : string) (rule : NetworkACLRuleItem)
  : DeleteNetworkACLRuleOptions.t :=
  {| DeleteNetworkACLRuleOptions.NetworkACLID := nwaclid;
     DeleteNetworkACLRuleOptions.ID :=
       match rule with
       | NetworkACLRuleItemNetworkACLRuleProtocolIcmp rule _ _ => Some (NetworkACLRule.ID rule)
       | NetworkACLRuleItemNetworkACLRuleProtocolTcpudp rule _ _ _ _ _ => Some (NetworkACLRule.ID rule)
       | NetworkACLRuleItemNetworkACLRuleProtocolAll rule => Some (NetworkACLRule.ID rule)
       end |}.

(** The second loop of [clearRules] (lines 873 to 893). *)
Fixpoint clearRules_delete (nwaclid : string) (allrecs : list NetworkACLRuleItem)
  : M (option error) :=
  match allrecs with
  | [] => ret None
  | rule :: rest =>
      '(response, err) <- call (DeleteNetworkACLRule (deleteNetworkAclRuleOptions nwaclid rule)) ;;
      match err with
      | Some e =>
          ret (Some (Errorf ("[ERROR] Error Deleting network ACL rule : " +:+ Error e
                             +:+ newline +:+ fmtResponse response)))
      | None => clearRules_delete nwaclid rest
      end
  end.

Definition clearRules (fuel : nat) (nwaclid : string) : M (option error) :=
  r <- clearRules_pages fuel nwaclid "" [] ;;
  match r with
  | inr err => ret (Some err)
  | inl allrecs => clearRules_delete nwaclid allrecs
  end.

Fixpoint validateInlineRules (rules : list Value) : Result (option error) :=
  match rules with
  | [] => Ret None
  | rule :: rest =>
      rulex <~ asMap rule ;;
      action <~ asString (index rulex isNetworkACLRuleAction) ;;
      if negb (String.eqb action "allow") && negb (String.eqb action "deny") then
        Ret (Some (Errorf "[ERROR] Invalid action. valid values are allow|deny"))
      else
        direction <~ asString (index rulex isNetworkACLRuleDirection) ;;
        let direction := ToLower direction in
        icmp <~ asList (index rulex isNetworkACLRuleICMP) ;;
        tcp <~ asList (index rulex isNetworkACLRuleTCP) ;;
        udp <~ asList (index rulex isNetworkACLRuleUDP) ;;
        let icmp := nonEmpty icmp in
        let tcp := nonEmpty tcp in
        let udp := nonEmpty udp in
        if (icmp && tcp) || (icmp && udp) || (tcp && udp) then
          Ret (Some (Errorf "Only one of icmp|tcp|udp can be defined per rule"))
        else validateInlineRules rest
  end.

(** [if val, ok := m[key]; ok { x = int64(val.(int)); field = &x }] *)
Definition portField (m : gmap string Value) (key : string) : Result (option Z) :=
  match m !! key with
  | Some val => v <~ asInt val ;; Ret (Some v)
  | None => Ret None
  end.

(** The first element of a non-empty slice. *)
Definition first (l : list Value) : Result Value :=
  match l with
  | v :: _ => Ret v
  | [] => Panic "index out of range [0] with length 0"
  end.

(** The body of the loop of [createInlineRules] up to the remote call
    (lines 924 to 1018): the prototype built from one rule. *)
Definition ruleTemplate (before : string) (rule : Value)
  : Result NetworkACLRulePrototype.t :=
  rulex <~ asMap rule ;;
  name <~ asString (index rulex isNetworkACLRuleName) ;;
  source <~ asString (index rulex isNetworkACLRuleSource) ;;
  destination <~ asString (index rulex isNetworkACLRuleDestination) ;;
  action <~ asString (index rulex isNetworkACLRuleAction) ;;
  direction <~ asString (index rulex isNetworkACLRuleDirection) ;;
  icmp <~ asList (index rulex isNetworkACLRuleICMP) ;;
  tcp <~ asList (index rulex isNetworkACLRuleTCP) ;;
  udp <~ asList (index rulex isNetworkACLRuleUDP) ;;
  let template protocol type code minport maxport sourceminport sourcemaxport :=
    {| NetworkACLRulePrototype.Action := action;
       NetworkACLRulePrototype.Destination := destination;
       NetworkACLRulePrototype.Direction := direction;
       NetworkACLRulePrototype.Source := source;
       NetworkACLRulePrototype.Name := name;
       NetworkACLRulePrototype.Before :=
         if decide (before = "") then None else Some before;
       NetworkACLRulePrototype.Protocol := Some protocol;
       NetworkACLRulePrototype.Type_ := type;
       NetworkACLRulePrototype.Code := code;
       NetworkACLRulePrototype.DestinationPortMin := minport;
       NetworkACLRulePrototype.DestinationPortMax := maxport;
       NetworkACLRulePrototype.SourcePortMin := sourceminport;
       NetworkACLRulePrototype.SourcePortMax := sourcemaxport |} in
  if nonEmpty icmp then
    icmp0 <~ first icmp ;;
    isnil <~ isNil icmp0 ;;
    if negb isnil then
      icmpval <~ asMap icmp0 ;;
      icmptype <~ portField icmpval isNetworkACLRuleICMPType ;;
      icmpcode <~ portField icmpval isNetworkACLRuleICMPCode ;;
      Ret (template "icmp" icmptype icmpcode None None None None)
    else Ret (template "icmp" None None None None None None)
  else if nonEmpty tcp then
    tcp0 <~ first tcp ;;
    tcpval <~ asMap tcp0 ;;
    minport <~ portField tcpval isNetworkACLRulePortMin ;;
    maxport <~ portField tcpval isNetworkACLRulePortMax ;;
    sourceminport <~ portField tcpval isNetworkACLRuleSourcePortMin ;;
    sourcemaxport <~ portField tcpval isNetworkACLRuleSourcePortMax ;;
    Ret (template "tcp" None None minport maxport sourceminport sourcemaxport)
  else if nonEmpty udp then
    udp0 <~ first udp ;;
    udpval <~ asMap udp0 ;;
    minport <~ portField udpval isNetworkACLRulePortMin ;;
    maxport <~ portField udpval isNetworkACLRulePortMax ;;
    sourceminport <~ portField udpval isNetworkACLRuleSourcePortMin ;;
    sourcemaxport <~ portField udpval isNetworkACLRuleSourcePortMax ;;
    Ret (template "udp" None None minport maxport sourceminport sourcemaxport)
  else Ret (template "all" None None None None None None).

Definition createNetworkAclRuleOptions (nwaclid : string)
  (template : NetworkACLRulePrototype.t) : CreateNetworkACLRuleOptions.t :=
  {| CreateNetworkACLRuleOptions.NetworkACLID := nwaclid;
     CreateNetworkACLRuleOptions.NetworkACLRulePrototype := template |}.

(** The loop of [createInlineRules]; [before] is the variable of that
    name, which the loop never assigns. *)
Fixpoint createInlineRules_loop (nwaclid before : string) (rules : list Value)
  : M (option error) :=
  match rules with
  | [] => ret None
  | rule :: rest =>
      template <- lift (ruleTemplate before rule) ;;
      '(_, response, err) <- call (CreateNetworkACLRule (createNetworkAclRuleOptions nwaclid template)) ;;
      match err with
      | Some e =>
          ret (Some (Errorf ("[ERROR] Error Creating network ACL rule : " +:+ Error e
                             +:+ newline +:+ fmtResponse response)))
      | None => createInlineRules_loop nwaclid before rest
      end
  end.

Definition createInlineRules (nwaclid : string) (rules : list Value) : M (option error) :=
  createInlineRules_loop nwaclid "" rules.

(** One tag update of a create, whose error is logged and dropped. *)
Definition updateTags (key crn : string) (tagType : TagType) : M unit :=
  '(oldList, newList) <- d_GetChange key ;;
  _ <- call (UpdateGlobalTagsUsingCRN oldList newList crn tagType) ;;
  ret tt.

(** The end of [nwaclCreate] (lines 484 to 500): the user tags are
    sent when they are set or [IC_ENV_TAGS] is, the access tags when
    they are set. *)
Definition nwaclCreate_tags (meta : Meta) (crn : string) : M unit :=
  let v := IC_ENV_TAGS meta in
  '(_, ok) <- d_GetOk isNetworkACLTags ;;
  _ <- (if ok || negb (String.eqb v "")
        then updateTags isNetworkACLTags crn isUserTagType
        else ret tt) ;;
  '(_, ok) <- d_GetOk isNetworkACLAccessTags ;;
  if ok then updateTags isNetworkACLAccessTags crn isAccessTagType else ret tt.

Definition nwaclCreate (fuel : nat) (meta : Meta) (name : string) : M Diagnostics :=
  match vpcClient meta with
  | Some err =>
      ret (GetDiag (DiscriminatedTerraformErrorf (Some err) (Error err)
                      "ibm_is_network_acl" "create" "initialize-client"))
  | None =>
      '(vpcID, ok) <- d_GetOk isNetworkACLVPC ;;
      if negb ok then
        (* [err.Error()] on the nil [err] of the client call *)
        panic "invalid memory address or nil pointer dereference"
      else
        vpc <- lift (asString vpcID) ;;
        '(grp, ok) <- d_GetOk isNetworkACLResourceGroup ;;
        rg <- (if ok then lift (s <~ asString grp ;; Ret (Some s)) else ret None) ;;
        let nwaclTemplate :=
          {| NetworkACLPrototype.VPC := vpc;
             NetworkACLPrototype.Name := if decide (name = "") then None else Some name;
             NetworkACLPrototype.ResourceGroup := rg |} in
        (* validate each rule before attempting to create the ACL *)
        '(rls, ok) <- d_GetOk isNetworkACLRules ;;
        rules <- (if ok then lift (asList rls) else ret []) ;;
        err <- lift (validateInlineRules rules) ;;
        match err with
        | Some e =>
            ret (GetDiag (DiscriminatedTerraformErrorf (Some e) (Error e)
                            "ibm_is_network_acl" "create" "validate-inline-rules"))
        | None =>
            '(nwacl, _, err) <- call (CreateNetworkACLWithContext nwaclTemplate) ;;
            match err with
            | Some e =>
                ret (GetDiag (TerraformErrorf (Some e)
                                ("CreateNetworkACLWithContext failed: " +:+ Error e)
                                "ibm_is_network_acl" "create"))
            | None =>
                nwacl <- lift (deref nwacl) ;;
                _ <- d_SetId (NetworkACL.ID nwacl) ;;
                let nwaclid := NetworkACL.ID nwacl in
                (* Remove default rules *)
                err <- clearRules fuel nwaclid ;;
                match err with
                | Some e =>
                    ret (GetDiag (TerraformErrorf (Some e)
                                    ("clearRules failed: " +:+ Error e)
                                    "ibm_is_network_acl" "create"))
                | None =>
                    err <- createInlineRules nwaclid rules ;;
                    match err with
                    | Some e =>
                        ret (GetDiag (TerraformErrorf (Some e)
                                        ("createInlineRules failed: " +:+ Error e)
                                        "ibm_is_network_acl" "create"))
                    | None =>
                        _ <- nwaclCreate_tags meta (NetworkACL.CRN nwacl) ;;
                        ret []
                    end
                end
            end
        end
  end.

Definition portsToMap (SourcePortMax SourcePortMin DestinationPortMax DestinationPortMin : option Z)
  : Value :=
  VMap (<[isNetworkACLRulePortMin := VInt (checkNetworkACLNil DestinationPortMin)]>
       (<[isNetworkACLRulePortMax := VInt (checkNetworkACLNil DestinationPortMax)]>
       (<[isNetworkACLRuleSourcePortMax := VInt (checkNetworkACLNil SourcePortMax)]>
       (<[isNetworkACLRuleSourcePortMin := VInt (checkNetworkACLNil SourcePortMin)]> ∅)))).

Definition ruleCommonToMap (subnets : nat) (rulex : NetworkACLRule.t) : gmap string Value :=
  <[isNetworkACLRuleDirection := VString (NetworkACLRule.Direction rulex)]>
  (<[isNetworkACLRuleDestination := VString (NetworkACLRule.Destination rulex)]>
  (<[isNetworkACLRuleSource := VString (NetworkACLRule.Source rulex)]>
  (<[isNetworkACLRuleIPVersion := VString (NetworkACLRule.IPVersion rulex)]>
  (<[isNetworkACLRuleAction := VString (NetworkACLRule.Action rulex)]>
  (<[isNetworkACLRuleName := VString (NetworkACLRule.Name rulex)]>
  (<[isNetworkACLRuleID := VString (NetworkACLRule.ID rulex)]>
  (<[isNetworkACLSubnets := VInt (Z.of_nat subnets)]> ∅))))))).

(** The body of the loop of [nwaclGet] over the rules of the ACL
    (lines 582 to 657): the switch on the rule's dynamic type. *)
Definition ruleItemToMap (subnets : nat) (rulex : NetworkACLRuleItem) : Value :=
  match rulex with
  | NetworkACLRuleItemNetworkACLRuleProtocolIcmp rulex Code Type_ =>
      let icmp :=
        match Code, Type_ with
        | Some code, Some type =>
            VMap (<[isNetworkACLRuleICMPCode := VInt code]>
                 (<[isNetworkACLRuleICMPType := VInt type]> ∅))
        | _, _ => VMap ∅
        end in
      VMap (<[isNetworkACLRuleICMP := VList [icmp]]>
           (<[isNetworkACLRuleUDP := VList []]>
           (<[isNetworkACLRuleTCP := VList []]> (ruleCommonToMap subnets rulex))))
  | NetworkACLRuleItemNetworkACLRuleProtocolTcpudp rulex Protocol
      SourcePortMax SourcePortMin DestinationPortMax DestinationPortMin =>
      let ports := portsToMap SourcePortMax SourcePortMin DestinationPortMax DestinationPortMin in
      if decide (Protocol = "tcp") then
        VMap (<[isNetworkACLRuleTCP := VList [ports]]>
             (<[isNetworkACLRuleUDP := VList []]>
             (<[isNetworkACLRuleICMP := VList []]> (ruleCommonToMap subnets rulex))))
      else if decide (Protocol = "udp") then
        VMap (<[isNetworkACLRuleUDP := VList [ports]]>
             (<[isNetworkACLRuleTCP := VList []]>
             (<[isNetworkACLRuleICMP := VList []]> (ruleCommonToMap subnets rulex))))
      else VMap (ruleCommonToMap subnets rulex)
  | NetworkACLRuleItemNetworkACLRuleProtocolAll rulex =>
      VMap (<[isNetworkACLRuleUDP := VList []]>
           (<[isNetworkACLRuleTCP := VList []]>
           (<[isNetworkACLRuleICMP := VList []]> (ruleCommonToMap subnets rulex))))
  end.

(** [response != nil && response.StatusCode == 404] *)
Definition statusIs404 (response : option DetailedResponse) : bool :=
  match response with
  | Some r => StatusCode r =? 404
  | None => false
  end.

(** [if err = d.Set(key, value); err != nil { return diag }], followed
    by the rest of the function. *)
Definition setOrFailIn (resource key : string) (value : Value)
  (what operation discriminator : string) (rest : M Diagnostics) : M Diagnostics :=
  err <- d_Set key value ;;
  match err with
  | Some e =>
      let err := Errorf ("Error setting " +:+ what +:+ ": " +:+ Error e) in
      ret (GetDiag (DiscriminatedTerraformErrorf (Some err) (Error err)
                      resource operation discriminator))
  | None => rest
  end.

Definition setOrFail := setOrFailIn "ibm_is_network_acl".

Definition nwaclGet (meta : Meta) (id : string) : M Diagnostics :=
  match vpcClient meta with
  | Some err =>
      ret (GetDiag (DiscriminatedTerraformErrorf (Some err) (Error err)
                      "ibm_is_network_acl" "read" "initialize-client"))
  | None =>
      '(nwacl, response, err) <- call (GetNetworkACLWithContext id) ;;
      match err with
      | Some e =>
          if statusIs404 response then _ <- d_SetId "" ;; ret []
          else ret (GetDiag (TerraformErrorf (Some e)
                               ("GetNetworkACLWithContext failed: " +:+ Error e)
                               "ibm_is_network_acl" "read"))
      | None =>
          nwacl <- lift (deref nwacl) ;;
          let setName rest :=
            match NetworkACL.Name nwacl with
            | Some name => setOrFail "name" (VString name) "name" "read" "set-name" rest
            | None => rest
            end in
          let setVPC rest :=
            match NetworkACL.VPC nwacl with
            | Some vpc => setOrFail isNetworkACLVPC (VString vpc) "vpc" "read" "set-vpc" rest
            | None => rest
            end in
          let setResourceGroup rest :=
            match NetworkACL.ResourceGroup nwacl with
            | Some rg =>
                setOrFail isNetworkACLResourceGroup (VString (ResourceGroupReference.ID rg))
                  "resource_group" "read" "set-resource_group"
                  (setOrFail ResourceGroupName (VString (ResourceGroupReference.Name rg))
                     "resource_group_name" "read" "set-resource_group_name" rest)
            | None => rest
            end in
          setName (setVPC (setResourceGroup (
            '(tags, _) <- call (GetGlobalTagsUsingCRN (NetworkACL.CRN nwacl) isUserTagType) ;;
            '(accesstags, _) <- call (GetGlobalTagsUsingCRN (NetworkACL.CRN nwacl) isAccessTagType) ;;
            setOrFail isNetworkACLTags tags "tags" "read" "set-tags" (
            setOrFail isNetworkACLAccessTags accesstags "access_tags" "read" "set-access_tags" (
            setOrFail "crn" (VString (NetworkACL.CRN nwacl)) "crn" "read" "set-crn" (
            let rules := map (ruleItemToMap (length (NetworkACL.Subnets nwacl)))
                             (NetworkACL.Rules nwacl) in
            setOrFail isNetworkACLRules (VList rules) "rules" "read" "set-rules" (
            match GetBaseController meta with
            | (_, Some e) =>
                ret (GetDiag (TerraformErrorf (Some e)
                                ("GetBaseController failed: " +:+ Error e)
                                "ibm_is_network_acl" "read"))
            | (controller, None) =>
                setOrFail ResourceControllerURL (VString (controller +:+ "/vpc-ext/network/acl"))
                  "resource_controller_url" "read" "set-resource_controller_url" (
                name <- lift (deref (NetworkACL.Name nwacl)) ;;
                setOrFail ResourceName (VString name)
                  "resource_name" "read" "set-resource_name" (ret []))
            end)))))))
      end
  end.

Definition resourceIBMISNetworkACLRead (meta : Meta) : M Diagnostics :=
  id <- d_Id ;;
  nwaclGet meta id.

Definition resourceIBMISNetworkACLCreate (fuel : nat) (meta : Meta) : M Diagnostics :=
  v <- d_Get isNetworkACLName ;;
  name <- lift (asString v) ;;
  err <- nwaclCreate fuel meta name ;;
  match err with
  | [] => resourceIBMISNetworkACLRead meta
  | _ => ret err
  end.

(** [networkACLPatchModel.AsPatch()]: the patch as a map. *)
Definition AsPatch (name : string) : gmap string Value * option error :=
  (<["name" := VString name]> ∅, None).

Definition updateTagsIfChanged (key : string) (tagType : TagType) : M unit :=
  changed <- d_HasChange key ;;
  if changed then
    '(oldList, newList) <- d_GetChange key ;;
    v <- d_Get isNetworkACLCRN ;;
    crn <- lift (asString v) ;;
    _ <- call (UpdateGlobalTagsUsingCRN oldList newList crn tagType) ;;
    ret tt
  else ret tt.

Definition nwaclUpdate (fuel : nat) (meta : Meta) (id name : string) (hasChanged : bool)
  : M Diagnostics :=
  match vpcClient meta with
  | Some err =>
      ret (GetDiag (DiscriminatedTerraformErrorf (Some err) (Error err)
                      "ibm_is_network_acl" "update" "initialize-client"))
  | None =>
      v <- d_Get isNetworkACLRules ;;
      rules <- lift (asList v) ;;
      let updateRules : M Diagnostics :=
        _ <- updateTagsIfChanged isNetworkACLTags isUserTagType ;;
        _ <- updateTagsIfChanged isNetworkACLAccessTags isAccessTagType ;;
        changed <- d_HasChange isNetworkACLRules ;;
        if changed then
          err <- lift (validateInlineRules rules) ;;
          match err with
          | Some e =>
              ret (GetDiag (TerraformErrorf (Some e)
                              ("validateInlineRules failed: " +:+ Error e)
                              "ibm_is_network_acl" "update"))
          | None =>
              (* Delete all existing rules *)
              err <- clearRules fuel id ;;
              match err with
              | Some e =>
                  ret (GetDiag (TerraformErrorf (Some e)
                                  ("clearRules failed: " +:+ Error e)
                                  "ibm_is_network_acl" "update"))
              | None =>
                  (* Create the rules as per the def *)
                  err <- createInlineRules id rules ;;
                  match err with
                  | Some e =>
                      ret (GetDiag (TerraformErrorf (Some e)
                                      ("createInlineRules failed: " +:+ Error e)
                                      "ibm_is_network_acl" "update"))
                  | None => ret []
                  end
              end
          end
        else ret [] in
      if hasChanged then
        match AsPatch name with
        | (_, Some e) =>
            ret (GetDiag (TerraformErrorf (Some e)
                            ("networkACLPatchModel.AsPatch() failed: " +:+ Error e)
                            "ibm_is_network_acl" "update"))
        | (networkACLPatch, None) =>
            let updateNetworkACLOptions :=
              {| UpdateNetworkACLOptions.ID := id;
                 UpdateNetworkACLOptions.NetworkACLPatch := networkACLPatch |} in
            '(_, _, err) <- call (UpdateNetworkACLWithContext updateNetworkACLOptions) ;;
            match err with
            | Some e =>
                ret (GetDiag (TerraformErrorf (Some e)
                                ("UpdateNetworkACLWithContext failed: " +:+ Error e)
                                "ibm_is_network_acl" "update"))
            | None => updateRules
            end
        end
      else updateRules
  end.

Definition resourceIBMISNetworkACLUpdate (fuel : nat) (meta : Meta) : M Diagnostics :=
  id <- d_Id ;;
  changed <- d_HasChange isNetworkACLName ;;
  '(name, hasChanged) <-
    (if changed then
       v <- d_Get isNetworkACLName ;;
       name <- lift (asString v) ;;
       ret (name, true)
     else ret ("", false)) ;;
  err <- nwaclUpdate fuel meta id name hasChanged ;;
  match err with
  | [] => resourceIBMISNetworkACLRead meta
  | _ => ret err
  end.

(** *** The floating IP of a bare metal server network interface *)

Definition isBareMetalServerNetworkInterfaceFloatingIpDeleting : string := "deleting".
Definition isBareMetalServerNetworkInterfaceFloatingIpDeleted : string := "deleted".
Definition isBareMetalServerNetworkInterfaceFloatingIpFailed : string := "failed".

Definition MakeTerraformNICFipID (id1 id2 id3 : string) : string :=
  id1 +:+ "/" +:+ id2 +:+ "/" +:+ id3.

Definition ParseNICFipTerraformID (s : string) : string * string * string * option error :=
  let segments := Split s "/" in
  if decide (length segments <> 3%nat) then
    ("", "", "", Some (Errorf ("invalid terraform Id " +:+ s +:+ " (incorrect number of segments)")))
  else
    let segment i := nth i segments "" in
    if decide (segment 0%nat = "" \/ segment 1%nat = "" \/ segment 2%nat = "") then
      ("", "", "", Some (Errorf ("invalid terraform Id " +:+ s +:+ " (one or more empty segments)")))
    else (segment 0%nat, segment 1%nat, segment 2%nat, None).

Definition fipResource : string := "ibm_is_bare_metal_server_network_interface_floating_ip".

Definition bareMetalServerNICFipGet (fip : FloatingIP.t) (bareMetalServerId nicId : string)
  : M Diagnostics :=
  _ <- d_SetId (MakeTerraformNICFipID bareMetalServerId nicId (FloatingIP.ID fip)) ;;
  setOrFailIn fipResource floatingIPName (VString (FloatingIP.Name fip)) "name" "read" "set-name" (
  setOrFailIn fipResource floatingIPAddress (VString (FloatingIP.Address fip)) "address" "read" "set-address" (
  setOrFailIn fipResource floatingIPStatus (VString (FloatingIP.Status fip)) "status" "read" "set-status" (
  setOrFailIn fipResource floatingIPZone (VString (FloatingIP.Zone fip)) "zone" "read" "set-zone" (
  setOrFailIn fipResource floatingIPCRN (VString (FloatingIP.CRN fip)) "crn" "read" "set-crn" (
  match FloatingIP.Target fip with
  | Some (FloatingIPTarget ID) =>
      setOrFailIn fipResource floatingIPTarget (optString ID) "target" "read" "set-target" (ret [])
  | _ => ret []
  end))))).

Definition getBmsNicFloatingIpOptions (bareMetalServerId nicId fipId : string)
  : GetBareMetalServerNetworkInterfaceFloatingIPOptions.t :=
  {| GetBareMetalServerNetworkInterfaceFloatingIPOptions.BareMetalServerID := bareMetalServerId;
     GetBareMetalServerNetworkInterfaceFloatingIPOptions.NetworkInterfaceID := nicId;
     GetBareMetalServerNetworkInterfaceFloatingIPOptions.ID := fipId |}.

Definition resourceIBMISBareMetalServerNetworkInterfaceFloatingIpRead (meta : Meta)
  : M Diagnostics :=
  id <- d_Id ;;
  let '(bareMetalServerId, nicID, fipId, err) := ParseNICFipTerraformID id in
  match err with
  | Some e =>
      ret (GetDiag (DiscriminatedTerraformErrorf (Some e) (Error e)
                      fipResource "read" "sep-id-parts"))
  | None =>
      match vpcClient meta with
      | Some err =>
          ret (GetDiag (DiscriminatedTerraformErrorf (Some err) (Error err)
                          fipResource "read" "initialize-client"))
      | None =>
          '(fip, response, err) <-
            call (GetBareMetalServerNetworkInterfaceFloatingIPWithContext
                    (getBmsNicFloatingIpOptions bareMetalServerId nicID fipId)) ;;
          match err, fip with
          | None, Some fip => bareMetalServerNICFipGet fip bareMetalServerId nicID
          | _, _ =>
              if statusIs404 response then _ <- d_SetId "" ;; ret []
              else
                match err with
                | Some e =>
                    ret (GetDiag (TerraformErrorf (Some e)
                                    ("GetBareMetalServerNetworkInterfaceFloatingIPWithContext failed: "
                                     +:+ Error e)
                                    fipResource "read"))
                | None =>
                    (* [err.Error()] on a nil [err] *)
                    panic "invalid memory address or nil pointer dereference"
                end
          end
      end
  end.

(** What a [resource.StateRefreshFunc] returns. *)
Definition Refreshed : Type := (option FloatingIP.t * string * option error)%type.

Definition isBareMetalServerNetworkInterfaceFloatingIpDeleteRefreshFunc
  (bareMetalServerId nicId fipId : string) : M Refreshed :=
  '(fip, response, err) <-
    call (GetBareMetalServerNetworkInterfaceFloatingIP
            (getBmsNicFloatingIpOptions bareMetalServerId nicId fipId)) ;;
  match err with
  | Some e =>
      if statusIs404 response then
        ret (fip, isBareMetalServerNetworkInterfaceFloatingIpDeleted, None)
      else
        ret (fip, isBareMetalServerNetworkInterfaceFloatingIpFailed,
             Some (Errorf ("[ERROR] Error getting Bare Metal Server(" +:+ bareMetalServerId
                           +:+ ") Network Interface (" +:+ nicId +:+ ") FloatingIp(" +:+ fipId
                           +:+ ") : " +:+ Error e +:+ newline +:+ fmtResponse response)))
  | None => ret (fip, isBareMetalServerNetworkInterfaceFloatingIpDeleting, None)
  end.






End Provider.

(** ** The vocabulary of the properties *)

(** The world after further events. *)
Definition extend (events : list Event) (w : World) : World :=
  {| trace := trace w ++ events; data := data w;
     communicator_closed := communicator_closed w |}.

(** The action of an inline rule, and one of its sub-blocks. *)
Definition actionOf (rule : Value) : string :=
  match rule with
  | VMap m => match m !! isNetworkACLRuleAction with Some (VString a) => a | _ => "" end
  | _ => ""
  end.

Definition blockOf (key : string) (rule : Value) : list Value :=
  match rule with
  | VMap m => match m !! key with Some (VList l) => l | _ => [] end
  | _ => []
  end.

(** How many of the sub-blocks icmp, tcp and udp a rule populates. *)
Definition populatedBlocks (rule : Value) : nat :=
  Nat.b2n (nonEmpty (blockOf isNetworkACLRuleICMP rule))
  + Nat.b2n (nonEmpty (blockOf isNetworkACLRuleTCP rule))
  + Nat.b2n (nonEmpty (blockOf isNetworkACLRuleUDP rule)).

(** A rule as the schema of the attribute [rules] types it, as far as
    the validation reads it: a map with strings for the action and the
    direction and lists for the three sub-blocks. *)
Definition schemaRule (rule : Value) : bool :=
  match rule with
  | VMap m =>
      match m !! isNetworkACLRuleAction, m !! isNetworkACLRuleDirection,
            m !! isNetworkACLRuleICMP, m !! isNetworkACLRuleTCP, m !! isNetworkACLRuleUDP with
      | Some (VString _), Some (VString _), Some (VList _), Some (VList _), Some (VList _) => true
      | _, _, _, _, _ => false
      end
  | _ => false
  end.

(** A string attribute of the resource data that is set to something
    other than the empty string. *)
Definition configured (d : ResourceData) (key : string) : option string :=
  match rd_values d !! key with
  | Some (VString s) => if decide (s = "") then None else Some s
  | _ => None
  end.

(** An attribute that holds a string or is not set. *)
Definition stringOrUnset (d : ResourceData) (key : string) : Prop :=
  match rd_values d !! key with
  | Some (VString _) | None => True
  | Some _ => False
  end.




(** The prototype [nwaclCreate] sends for the name it is given, the
    VPC and the resource data. *)
Definition nwaclTemplateOf (name vpc : string) (d : ResourceData) : NetworkACLPrototype.t :=
  {| NetworkACLPrototype.VPC := vpc;
     NetworkACLPrototype.Name := if decide (name = "") then None else Some name;
     NetworkACLPrototype.ResourceGroup := configured d isNetworkACLResourceGroup |}.

(** The rule with another direction. *)
Definition withDirection (direction : string) (rule : Value) : Value :=
  match rule with
  | VMap m => VMap (<[isNetworkACLRuleDirection := VString direction]> m)
  | _ => rule
  end.

Section Listings.

Context `{Collaborators}.

(** [managerListing id h start pages outcome]: from the history [h]
    on, the successive fetches of the managers of instance group [id],
    the first with the cursor [start] and each further one with the
    cursor of the page before, return the pages [pages]; then either
    the last page has no cursor ([outcome] is [None]) or the next fetch
    fails with the error and response of [outcome]. *)
Inductive managerListing (instanceGroupID : string)
  : list Event -> string -> list InstanceGroupManagerCollection.t
    -> option (error * option DetailedResponse) -> Prop :=
| managerListing_last h start page response :
    sdk h (ListInstanceGroupManagersWithContext
             (listInstanceGroupManagerOptions instanceGroupID start))
      = (Some page, response, None) ->
    GetNext (InstanceGroupManagerCollection.Next page) = "" ->
    managerListing instanceGroupID h start [page] None
| managerListing_next h start page response pages outcome :
    sdk h (ListInstanceGroupManagersWithContext
             (listInstanceGroupManagerOptions instanceGroupID start))
      = (Some page, response, None) ->
    GetNext (InstanceGroupManagerCollection.Next page) <> "" ->
    managerListing instanceGroupID
      (h ++ [EvCall (ListInstanceGroupManagersWithContext
                       (listInstanceGroupManagerOptions instanceGroupID start))])
      (GetNext (InstanceGroupManagerCollection.Next page)) pages outcome ->
    managerListing instanceGroupID h start (page :: pages) outcome
| managerListing_error h start result response e :
    sdk h (ListInstanceGroupManagersWithContext
             (listInstanceGroupManagerOptions instanceGroupID start))
      = (result, response, Some e) ->
    managerListing instanceGroupID h start [] (Some (e, response)).

(** The fetches of such a listing: one per page, each with the cursor
    it was asked with, and the failing one if there is one. *)
Fixpoint managerListingCalls {A} (instanceGroupID start : string)
  (pages : list InstanceGroupManagerCollection.t) (outcome : option A) : list Event :=
  let fetch := EvCall (ListInstanceGroupManagersWithContext
                         (listInstanceGroupManagerOptions instanceGroupID start)) in
  match pages with
  | [] => match outcome with Some _ => [fetch] | None => [] end
  | page :: pages =>
      fetch :: managerListingCalls instanceGroupID
                 (GetNext (InstanceGroupManagerCollection.Next page)) pages outcome
  end.

(** The same for the rules of a network ACL. *)
Inductive ruleListing (nwaclid : string)
  : list Event -> string -> list NetworkACLRuleCollection.t
    -> option (error * option DetailedResponse) -> Prop :=
| ruleListing_last h start page response :
    sdk h (ListNetworkACLRules (listNetworkAclRulesOptions nwaclid start))
      = (Some page, response, None) ->
    GetNext (NetworkACLRuleCollection.Next page) = "" ->
    ruleListing nwaclid h start [page] None
| ruleListing_next h start page response pages outcome :
    sdk h (ListNetworkACLRules (listNetworkAclRulesOptions nwaclid start))
      = (Some page, response, None) ->
    GetNext (NetworkACLRuleCollection.Next page) <> "" ->
    ruleListing nwaclid
      (h ++ [EvCall (ListNetworkACLRules (listNetworkAclRulesOptions nwaclid start))])
      (GetNext (NetworkACLRuleCollection.Next page)) pages outcome ->
    ruleListing nwaclid h start (page :: pages) outcome
| ruleListing_error h start result response e :
    sdk h (ListNetworkACLRules (listNetworkAclRulesOptions nwaclid start))
      = (result, response, Some e) ->
    ruleListing nwaclid h start [] (Some (e, response)).

Fixpoint ruleListingCalls {A} (nwaclid start : string)
  (pages : list NetworkACLRuleCollection.t) (outcome : option A) : list Event :=
  let fetch := EvCall (ListNetworkACLRules (listNetworkAclRulesOptions nwaclid start)) in
  match pages with
  | [] => match outcome with Some _ => [fetch] | None => [] end
  | page :: pages =>
      fetch :: ruleListingCalls nwaclid
                 (GetNext (NetworkACLRuleCollection.Next page)) pages outcome
  end.

(** All managers, all rules of the pages, in the order of the pages. *)
Definition allManagers (pages : list InstanceGroupManagerCollection.t)
  : list InstanceGroupManager.t :=
  concat (map InstanceGroupManagerCollection.Managers pages).

Definition allRules (pages : list NetworkACLRuleCollection.t) : list NetworkACLRuleItem :=
  concat (map NetworkACLRuleCollection.Rules pages).

(** The rule creation calls for a list of prototypes, in its order. *)
Definition createCalls (nwaclid : string) (templates : list NetworkACLRulePrototype.t)
  : list Event :=
  map (fun template =>
         EvCall (CreateNetworkACLRule (createNetworkAclRuleOptions nwaclid template)))
      templates.

(** The delete calls for a list of listed rules, in its order. *)
Definition deleteCalls (nwaclid : string) (rules : list NetworkACLRuleItem) : list Event :=
  map (fun rule => EvCall (DeleteNetworkACLRule (deleteNetworkAclRuleOptions nwaclid rule)))
      rules.


End Listings.

(** ** A test bed

    A concrete remote side, used to run the code on concrete inputs.
    Listings come in two pages, the second one behind the cursor
    ["p2"]; what an operation answers is chosen by the identifier it
    is asked about. *)

Module Testbed.

Definition response (status : Z) : option DetailedResponse :=
  Some {| StatusCode := status; ResponseText := "" |}.

Definition failure {A} (status : Z) (message : string) : SdkReply A :=
  (None, response status, Some (ErrorString message)).

Definition success {A} (a : A) : SdkReply A := (Some a, response 200, None).

Definition next (cursor : string) : option CollectionNext :=
  Some {| Href := cursor |}.

Definition manager (id : string) : InstanceGroupManager.t :=
  {| InstanceGroupManager.ID := id;
     InstanceGroupManager.Name := "manager-" +:+ id;
     InstanceGroupManager.ManagerType := "autoscale";
     InstanceGroupManager.AggregationWindow := Some 90;
     InstanceGroupManager.Cooldown := Some 300;
     InstanceGroupManager.MaxMembershipCount := Some 5;
     InstanceGroupManager.MinMembershipCount := Some 1;
     InstanceGroupManager.Policies := ["policy-" +:+ id];
     InstanceGroupManager.Actions := None |}.

Definition managerPage1 : InstanceGroupManagerCollection.t :=
  {| InstanceGroupManagerCollection.Managers := [manager "m1"; manager "m2"];
     InstanceGroupManagerCollection.Next := next "p2" |}.

Definition managerPage2 : InstanceGroupManagerCollection.t :=
  {| InstanceGroupManagerCollection.Managers := [manager "m3"];
     InstanceGroupManagerCollection.Next := None |}.

Definition emptyManagerPage : InstanceGroupManagerCollection.t :=
  {| InstanceGroupManagerCollection.Managers := [];
     InstanceGroupManagerCollection.Next := None |}.

Definition rule (id : string) : NetworkACLRule.t :=
  {| NetworkACLRule.ID := id;
     NetworkACLRule.Name := "rule-" +:+ id;
     NetworkACLRule.Action := "allow";
     NetworkACLRule.IPVersion := "ipv4";
     NetworkACLRule.Source := "0.0.0.0/0";
     NetworkACLRule.Destination := "0.0.0.0/0";
     NetworkACLRule.Direction := "inbound" |}.

Definition rulePage1 : NetworkACLRuleCollection.t :=
  {| NetworkACLRuleCollection.Rules :=
       [NetworkACLRuleItemNetworkACLRuleProtocolAll (rule "r1");
        NetworkACLRuleItemNetworkACLRuleProtocolIcmp (rule "r2") (Some 0) (Some 8)];
     NetworkACLRuleCollection.Next := next "p2" |}.

Definition rulePage2 : NetworkACLRuleCollection.t :=
  {| NetworkACLRuleCollection.Rules :=
       [NetworkACLRuleItemNetworkACLRuleProtocolTcpudp (rule "r3") "tcp"
          None None (Some 22) (Some 22)];
     NetworkACLRuleCollection.Next := None |}.

Definition emptyRulePage : NetworkACLRuleCollection.t :=
  {| NetworkACLRuleCollection.Rules := [];
     NetworkACLRuleCollection.Next := None |}.

Definition acl (id : string) : NetworkACL.t :=
  {| NetworkACL.ID := id;
     NetworkACL.CRN := "crn:" +:+ id;
     NetworkACL.Name := Some id;
     NetworkACL.VPC := Some "vpc-1";
     NetworkACL.ResourceGroup := None;
     NetworkACL.Rules := [];
     NetworkACL.Subnets := [] |}.

Definition floatingIP (id status : string) : FloatingIP.t :=
  {| FloatingIP.ID := id;
     FloatingIP.Name := "fip-" +:+ id;
     FloatingIP.Address := "192.0.2.1";
     FloatingIP.Status := status;
     FloatingIP.Zone := "us-south-1";
     FloatingIP.CRN := "crn:" +:+ id;
     FloatingIP.Target := None |}.

(** How many status fetches the history holds. *)
Fixpoint fetches (h : list Event) : nat :=
  match h with
  | EvCall (GetBareMetalServerNetworkInterfaceFloatingIP _) :: h => S (fetches h)
  | _ :: h => fetches h
  | [] => O
  end.

(** The floating IP ["gone"] does not exist, ["broken"] cannot be
    read, ["stuck"] stays pending; any other is pending on the first
    two fetches and available from the third on. *)
Definition getFloatingIP (h : list Event)
  (o : GetBareMetalServerNetworkInterfaceFloatingIPOptions.t) : SdkReply FloatingIP.t :=
  let id := GetBareMetalServerNetworkInterfaceFloatingIPOptions.ID o in
  if decide (id = "gone") then failure 404 "floating ip not found"
  else if decide (id = "broken") then failure 500 "internal error"
  else if decide (id = "stuck") then success (floatingIP id "pending")
  else if (fetches h <? 2)%nat then success (floatingIP id "pending")
  else success (floatingIP id "available").

(** The instance group and the ACL ["empty"] have no items, the
    second page of ["flaky"] fails, ["unlistable"] cannot be listed;
    a rule named ["refused"] cannot be created; the ACL ["gone"] does
    not exist and ["broken"] cannot be read; a new ACL gets its name as
    its identifier. *)
Definition remote (h : list Event) (r : Request) : Reply r :=
  match r with
  | ListInstanceGroupManagersWithContext o =>
      let id := ListInstanceGroupManagersOptions.InstanceGroupID o in
      match ListInstanceGroupManagersOptions.Start o with
      | None =>
          if decide (id = "empty") then success emptyManagerPage
          else if decide (id = "unlistable") then failure 500 "internal error"
          else success managerPage1
      | Some _ =>
          if decide (id = "flaky") then failure 503 "service unavailable"
          else success managerPage2
      end
  | CreateNetworkACLWithContext o =>
      match NetworkACLPrototype.Name o with
      | Some name => success (acl name)
      | None => success (acl "acl-1")
      end
  | UpdateNetworkACLWithContext o => success (acl (UpdateNetworkACLOptions.ID o))
  | GetNetworkACLWithContext id =>
      if decide (id = "gone") then failure 404 "network acl not found"
      else if decide (id = "broken") then failure 500 "internal error"
      else success (acl id)
  | ListNetworkACLRules o =>
      let id := ListNetworkACLRulesOptions.NetworkACLID o in
      match ListNetworkACLRulesOptions.Start o with
      | None =>
          if decide (id = "empty") then success emptyRulePage
          else if decide (id = "unlistable") then failure 500 "internal error"
          else success rulePage1
      | Some _ =>
          if decide (id = "flaky") then failure 503 "service unavailable"
          else success rulePage2
      end
  | DeleteNetworkACLRule _ => (response 204, None)
  | CreateNetworkACLRule o =>
      let template := CreateNetworkACLRuleOptions.NetworkACLRulePrototype o in
      if decide (NetworkACLRulePrototype.Name template = "refused")
      then failure 400 "bad request"
      else success (NetworkACLRuleItemNetworkACLRuleProtocolAll
                      (rule (NetworkACLRulePrototype.Name template)))
  | GetBareMetalServerNetworkInterfaceFloatingIPWithContext o => getFloatingIP h o
  | GetBareMetalServerNetworkInterfaceFloatingIP o => getFloatingIP h o
  | UpdateGlobalTagsUsingCRN _ _ _ _ => None
  | GetGlobalTagsUsingCRN _ _ => (VList [], None)
  | TimeNowUTC => "2026-01-01 00:00:00 +0000 UTC"
  end.

(** [flex.GetNext] on references that carry the cursor itself. *)
Definition cursor (next : option CollectionNext) : string :=
  match next with
  | Some n => Href n
  | None => ""
  end.

Definition collaborators : Collaborators := {|
  sdk := remote;
  GetNext := cursor;
  ResourceControllerURL := "resource_controller_url";
  ResourceName := "resource_name";
  ResourceGroupName := "resource_group_name";
  floatingIPName := "name";
  floatingIPAddress := "address";
  floatingIPStatus := "status";
  floatingIPZone := "zone";
  floatingIPTarget := "target";
  floatingIPCRN := "crn"
|}.

Definition meta : Meta :=
  {| vpcClient := None; IC_ENV_TAGS := ""; GetBaseController := ("https://cloud.ibm.com", None) |}.

(** Resource data with the given identifier, values and changed
    attributes, under a schema that accepts every value. *)
Definition resourceData (id : string) (values : gmap string Value) (changed : gset string)
  : ResourceData :=
  {| rd_Id := id; rd_state := ∅; rd_values := values; rd_changed := changed;
     rd_zero := fun key => if decide (key = "rules") then VList [] else VString "";
     rd_accepts := fun _ _ => true |}.

Definition world (d : ResourceData) : World :=
  {| trace := []; data := d; communicator_closed := false |}.

(** Inline rules. *)
Definition ports (min max : Z) : Value :=
  VMap (<["port_min" := VInt min]> (<["port_max" := VInt max]>
       (<["source_port_min" := VInt 1]> (<["source_port_max" := VInt 65535]> ∅)))).

Definition inlineRule (name action direction : string) (icmp tcp udp : list Value) : Value :=
  VMap (<["name" := VString name]> (<["action" := VString action]>
       (<["direction" := VString direction]> (<["source" := VString "0.0.0.0/0"]>
       (<["destination" := VString "0.0.0.0/0"]> (<["icmp" := VList icmp]>
       (<["tcp" := VList tcp]> (<["udp" := VList udp]> ∅)))))))).

Definition sshRule : Value := inlineRule "ssh" "allow" "inbound" [] [ports 22 22] [].
Definition pingRule : Value := inlineRule "ping" "deny" "sideways" [VNil] [] [].
Definition refusedRule : Value := inlineRule "refused" "allow" "outbound" [] [] [].
Definition conflictingRule : Value :=
  inlineRule "both" "allow" "inbound" [VNil] [ports 80 80] [].

(** The prototypes of the rules above. *)
Definition prototype (name action direction protocol : string)
  (minport maxport sourceminport sourcemaxport : option Z) : NetworkACLRulePrototype.t :=
  {| NetworkACLRulePrototype.Action := action;
     NetworkACLRulePrototype.Destination := "0.0.0.0/0";
     NetworkACLRulePrototype.Direction := direction;
     NetworkACLRulePrototype.Source := "0.0.0.0/0";
     NetworkACLRulePrototype.Name := name;
     NetworkACLRulePrototype.Before := None;
     NetworkACLRulePrototype.Protocol := Some protocol;
     NetworkACLRulePrototype.Type_ := None;
     NetworkACLRulePrototype.Code := None;
     NetworkACLRulePrototype.DestinationPortMin := minport;
     NetworkACLRulePrototype.DestinationPortMax := maxport;
     NetworkACLRulePrototype.SourcePortMin := sourceminport;
     NetworkACLRulePrototype.SourcePortMax := sourcemaxport |}.

Definition sshTemplate : NetworkACLRulePrototype.t :=
  prototype "ssh" "allow" "inbound" "tcp" (Some 22) (Some 22) (Some 1) (Some 65535).
Definition pingTemplate : NetworkACLRulePrototype.t :=
  prototype "ping" "deny" "sideways" "icmp" None None None None.
Definition refusedTemplate : NetworkACLRulePrototype.t :=
  prototype "refused" "allow" "outbound" "all" None None None None.

End Testbed.

(** ** Further operations and vocabulary *)

(** [strings.Join(segments, sep)] for a separator of one byte. *)
Fixpoint joinSegments (segments : list string) (sep : ascii) : string :=
  match segments with
  | [] => ""
  | [segment] => segment
  | segment :: rest => segment +:+ String sep (joinSegments rest sep)
  end.

Section Exists.

Context `{Collaborators}.

(** [nwaclExists] (lines 823 to 843). The method [GetNetworkACL] of the
    SDK hands its options to [GetNetworkACLWithContext] with the
    background context, so the request is the one of the read. The
    error returned is nil or the problem built by the [flex] helpers. *)
Definition nwaclExists (meta : Meta) (id : string) : M (bool * option TerraformProblem) :=
  match vpcClient meta with
  | Some err =>
      ret (false, Some (DiscriminatedTerraformErrorf (Some err) (Error err)
                          "ibm_is_network_acl" "exists" "initialize-client"))
  | None =>
      '(_, response, err) <- call (GetNetworkACLWithContext id) ;;
      match err with
      | Some e =>
          if statusIs404 response then ret (false, None)
          else ret (false, Some (TerraformErrorf (Some e)
                                   ("GetNetworkACL failed: " +:+ Error e)
                                   "ibm_is_network_acl" "exists"))
      | None => ret (true, None)
      end
  end.

Definition resourceIBMISNetworkACLExists (meta : Meta) : M (bool * option TerraformProblem) :=
  id <- d_Id ;;
  nwaclExists meta id.

End Exists.

(** A listing or a deletion of rules of the ACL [nwaclid]. *)
Definition isRuleClearing (nwaclid : string) (e : Event) : Prop :=
  match e with
  | EvCall (ListNetworkACLRules o) => ListNetworkACLRulesOptions.NetworkACLID o = nwaclid
  | EvCall (DeleteNetworkACLRule o) => DeleteNetworkACLRuleOptions.NetworkACLID o = nwaclid
  | _ => False
  end.

(** An attribute that holds a list or is not set, and the list it
    stands for. *)
Definition listOrUnset (d : ResourceData) (key : string) : Prop :=
  match rd_values d !! key with
  | Some (VList _) | None => True
  | Some _ => False
  end.

Definition configuredList (d : ResourceData) (key : string) : list Value :=
  match rd_values d !! key with
  | Some (VList l) => l
  | _ => []
  end.

(** The world after [d.Set(key, value)] went through. *)
Definition withValue (key : string) (value : Value) (w : World) : World :=
  withData {| rd_Id := rd_Id (data w); rd_state := rd_state (data w);
              rd_values := <[key := value]> (rd_values (data w));
              rd_changed := rd_changed (data w); rd_zero := rd_zero (data w);
              rd_accepts := rd_accepts (data w) |} w.

(** A schema that accepts every value. *)
Definition acceptsAll (d : ResourceData) : Prop :=
  forall key value, rd_accepts d key value = true.

(** The protocol [createInlineRules] chooses for a rule: the first
    populated sub-block among icmp, tcp and udp, and all when none
    is. *)
Definition protocolOf (rule : Value) : string :=
  if nonEmpty (blockOf isNetworkACLRuleICMP rule) then "icmp"
  else if nonEmpty (blockOf isNetworkACLRuleTCP rule) then "tcp"
  else if nonEmpty (blockOf isNetworkACLRuleUDP rule) then "udp"
  else "all".

(** A rule the validation lets pass. *)
Definition validRule (rule : Value) : Prop :=
  (actionOf rule = "allow" \/ actionOf rule = "deny") /\ (populatedBlocks rule <= 1)%nat.

(** The common fields of a listed rule. *)
Definition ruleOf (item : NetworkACLRuleItem) : NetworkACLRule.t :=
  match item with
  | NetworkACLRuleItemNetworkACLRuleProtocolIcmp rule _ _ => rule
  | NetworkACLRuleItemNetworkACLRuleProtocolTcpudp rule _ _ _ _ _ => rule
  | NetworkACLRuleItemNetworkACLRuleProtocolAll rule => rule
  end.

(** A listed rule whose protocol is one of those the read flattens
    into sub-blocks. *)
Definition knownProtocol (item : NetworkACLRuleItem) : Prop :=
  match item with
  | NetworkACLRuleItemNetworkACLRuleProtocolTcpudp _ protocol _ _ _ _ =>
      protocol = "tcp" \/ protocol = "udp"
  | _ => True
  end.

(** The protocol of a listed rule: the kind of the rule, or for the
    TCP/UDP kind the protocol it names. *)
Definition protocolOfItem (item : NetworkACLRuleItem) : string :=
  match item with
  | NetworkACLRuleItemNetworkACLRuleProtocolIcmp _ _ _ => "icmp"
  | NetworkACLRuleItemNetworkACLRuleProtocolTcpudp _ protocol _ _ _ _ => protocol
  | NetworkACLRuleItemNetworkACLRuleProtocolAll _ => "all"
  end.

(** What [d.Get(key)] returns: the value of the attribute, or the
    zero value of the schema when it is not set. *)
Definition attribute (d : ResourceData) (key : string) : Value :=
  match rd_values d !! key with
  | Some v => v
  | None => rd_zero d key
  end.

(** An attribute [d.GetOk] reports as not set. *)
Definition unsetOrZero (d : ResourceData) (key : string) : Prop :=
  match rd_values d !! key with
  | Some v => isZero v = true
  | None => True
  end.

(** A manager the data source can flatten: a scheduled one, or one
    with its four counters. *)
Definition flattenable (manager : InstanceGroupManager.t) : Prop :=
  InstanceGroupManager.ManagerType manager = "scheduled"
  \/ (InstanceGroupManager.AggregationWindow manager <> None
      /\ InstanceGroupManager.Cooldown manager <> None
      /\ InstanceGroupManager.MaxMembershipCount manager <> None
      /\ InstanceGroupManager.MinMembershipCount manager <> None).

Section Clearing.

Context `{Collaborators}.

(** The calls of a [clearRules] that goes through: the fetches of the
    listing, then one delete per listed rule. *)
Definition clearCalls (nwaclid : string) (pages : list NetworkACLRuleCollection.t)
  : list Event :=
  ruleListingCalls nwaclid "" pages (@None (error * option DetailedResponse))
  ++ deleteCalls nwaclid (allRules pages).

(** From the history [h] on, the rules of the ACL are listed in the
    pages [pages] and then the first [k] of them can be deleted, one
    after the other. *)
Definition deletable (nwaclid : string) (h : list Event)
  (pages : list NetworkACLRuleCollection.t) (k : nat) : Prop :=
  ruleListing nwaclid h "" pages None
  /\ forall i rule,
       (i < k)%nat ->
       allRules pages !! i = Some rule ->
       snd (sdk (h ++ ruleListingCalls nwaclid "" pages
                        (@None (error * option DetailedResponse))
                   ++ deleteCalls nwaclid (take i (allRules pages)))
              (DeleteNetworkACLRule (deleteNetworkAclRuleOptions nwaclid rule))) = None.

(** The same for all the rules listed. *)
Definition clearable (nwaclid : string) (h : list Event)
  (pages : list NetworkACLRuleCollection.t) : Prop :=
  deletable nwaclid h pages (length (allRules pages)).

(** The prototypes of a list of rules. *)
Definition templatesOf (rules : list Value) (templates : list NetworkACLRulePrototype.t)
  : Prop :=
  Forall2 (fun rule template => ruleTemplate "" rule = Ret template) rules templates.

(** From the history [h] on, the first [k] of the prototypes can be
    created as rules of the ACL, one after the other. *)
Definition creatable (nwaclid : string) (h : list Event)
  (templates : list NetworkACLRulePrototype.t) (k : nat) : Prop :=
  forall i template,
    (i < k)%nat ->
    templates !! i = Some template ->
    snd (sdk (h ++ createCalls nwaclid (take i templates))
           (CreateNetworkACLRule (createNetworkAclRuleOptions nwaclid template))) = None.

End Clearing.

(** A second test bed: the rule ["r2"] cannot be deleted, an ACL
    cannot be renamed, the tagging service is down, and the read of a
    floating IP answers with a response of status 200 that carries
    neither a floating IP nor an error; everything else is as in the
    first. *)
Module Outage.

Definition remote (h : list Event) (r : Request) : Reply r :=
  match r as r0 return Reply r0 with
  | GetBareMetalServerNetworkInterfaceFloatingIPWithContext _ =>
      (None, Testbed.response 200, None)
  | DeleteNetworkACLRule o =>
      if decide (DeleteNetworkACLRuleOptions.ID o = Some "r2")
      then (Testbed.response 500, Some (ErrorString "cannot delete"))
      else (Testbed.response 204, None)
  | UpdateNetworkACLWithContext _ => Testbed.failure 409 "conflict"
  | UpdateGlobalTagsUsingCRN _ _ _ _ => Some (ErrorString "tagging unavailable")
  | GetGlobalTagsUsingCRN _ _ => (VNil, Some (ErrorString "tagging unavailable"))
  | r0 => Testbed.remote h r0
  end.

Definition collaborators : Collaborators := {|
  sdk := remote;
  GetNext := Testbed.cursor;
  ResourceControllerURL := "resource_controller_url";
  ResourceName := "resource_name";
  ResourceGroupName := "resource_group_name";
  floatingIPName := "name";
  floatingIPAddress := "address";
  floatingIPStatus := "status";
  floatingIPZone := "zone";
  floatingIPTarget := "target";
  floatingIPCRN := "crn"
|}.

End Outage.

(** A configuration for the first test bed: a VPC and inline rules,
    the rules changed by the plan; the pages the rules of an ACL are
    listed in there, and the call that creates the ACL. *)
Module Scenario.

Definition pages : list NetworkACLRuleCollection.t := [Testbed.rulePage1; Testbed.rulePage2].

Definition configuration (rules : list Value) : gmap string Value :=
  {[isNetworkACLVPC := VString "vpc-1"; isNetworkACLRules := VList rules]}.

Definition planned (rules : list Value) : World :=
  Testbed.world (Testbed.resourceData "acl-1" (configuration rules) {[isNetworkACLRules]}).

Definition created (rules : list Value) : Event :=
  EvCall (CreateNetworkACLWithContext
            (nwaclTemplateOf "acl-1" "vpc-1" (data (planned rules)))).

End Scenario.

(** * Properties *)

(** ** Composite identifiers *)

Lemma Split_without_separator (s : string) (sep : ascii) :
  Contains s sep = false -> Split s sep = [s].
Proof.
  induction s as [|c s IH]; simpl; [reflexivity|].
  destruct (Ascii.eqb c sep); simpl; [discriminate|].
  intros Hs. rewrite (IH Hs). reflexivity.
Qed.

Lemma Split_at_separator (s rest : string) (sep : ascii) :
  Contains s sep = false ->
  Split (s +:+ String sep rest) sep = s :: Split rest sep.
Proof.
  induction s as [|c s IH]; simpl.
  - intros _. rewrite Ascii.eqb_refl. reflexivity.
  - destruct (Ascii.eqb c sep); simpl; [discriminate|].
    intros Hs. rewrite (IH Hs). reflexivity.
Qed.

Lemma Split_MakeTerraformNICFipID (id1 id2 id3 : string) :
  Contains id1 "/" = false -> Contains id2 "/" = false -> Contains id3 "/" = false ->
  Split (MakeTerraformNICFipID id1 id2 id3) "/" = [id1; id2; id3].
Proof.
  intros H1 H2 H3. unfold MakeTerraformNICFipID.
  change ("/" +:+ id2 +:+ "/" +:+ id3) with (String "/" (id2 +:+ String "/" id3)).
  rewrite (Split_at_separator _ _ _ H1), (Split_at_separator _ _ _ H2).
  rewrite (Split_without_separator _ _ H3). reflexivity.
Qed.

(** C3, as amended. Three non-empty components none of which contains
    the separator are joined with ['/'] and parsed back unchanged and
    without an error; and every string whose split at ['/'] has not
    exactly three segments, or has an empty one, is refused. *)
Theorem NICFipID_roundtrip :
  (forall id1 id2 id3 : string,
     id1 <> "" -> id2 <> "" -> id3 <> "" ->
     Contains id1 "/" = false -> Contains id2 "/" = false -> Contains id3 "/" = false ->
     MakeTerraformNICFipID id1 id2 id3 = id1 +:+ "/" +:+ id2 +:+ "/" +:+ id3 /\
     ParseNICFipTerraformID (MakeTerraformNICFipID id1 id2 id3) = (id1, id2, id3, None))
  /\
  (forall s : string,
     length (Split s "/") <> 3%nat \/ In "" (Split s "/") ->
     exists e, ParseNICFipTerraformID s = ("", "", "", Some e)).
Proof.
  split.
  - intros id1 id2 id3 N1 N2 N3 H1 H2 H3. split; [reflexivity|].
    unfold ParseNICFipTerraformID.
    rewrite (Split_MakeTerraformNICFipID _ _ _ H1 H2 H3). simpl.
    destruct (decide _) as [[E|[E|E]]|_]; congruence.
  - intros s Hbad. unfold ParseNICFipTerraformID.
    destruct (decide (length (Split s "/") <> 3%nat)) as [|Hlen]; [eauto|].
    destruct (decide _) as [|Hseg]; [eauto|].
    exfalso. destruct Hbad as [Hbad|Hbad]; [contradiction|].
    destruct (Split s "/") as [|s0 [|s1 [|s2 [|]]]]; simpl in Hlen; try lia.
    simpl in Hseg, Hbad. intuition congruence.
Qed.

Lemma NICFipID_roundtrip_witness :
  ParseNICFipTerraformID (MakeTerraformNICFipID "bms-1" "nic-2" "fip-3")
    = ("bms-1", "nic-2", "fip-3", None)
  /\ exists e, ParseNICFipTerraformID "bms-1//fip-3" = ("", "", "", Some e).
Proof.
  split.
  - apply (proj1 NICFipID_roundtrip "bms-1" "nic-2" "fip-3");
      solve [discriminate | reflexivity].
  - apply (proj2 NICFipID_roundtrip "bms-1//fip-3").
    right. vm_compute. tauto.
Defined.

(** C3 as stated fails: a non-empty component that contains ['/']
    is split into two, and the parser refuses the four segments. *)
Lemma NICFipID_roundtrip_fails_on_separator :
  "a/b" <> "" /\ "c" <> "" /\ "d" <> "" /\
  ParseNICFipTerraformID (MakeTerraformNICFipID "a/b" "c" "d")
    = ("", "", "",
       Some (Errorf "invalid terraform Id a/b/c/d (incorrect number of segments)")).
Proof. repeat split; solve [discriminate | reflexivity]. Qed.

(** ** Validation of the inline rules *)

Lemma schemaRule_inv (rule : Value) :
  schemaRule rule = true ->
  exists m action direction icmp tcp udp,
    rule = VMap m /\
    m !! isNetworkACLRuleAction = Some (VString action) /\
    m !! isNetworkACLRuleDirection = Some (VString direction) /\
    m !! isNetworkACLRuleICMP = Some (VList icmp) /\
    m !! isNetworkACLRuleTCP = Some (VList tcp) /\
    m !! isNetworkACLRuleUDP = Some (VList udp).
Proof.
  unfold schemaRule. destruct rule as [| | | | |m]; try discriminate.
  destruct (m !! isNetworkACLRuleAction) as [[]|] eqn:Ha; try discriminate.
  destruct (m !! isNetworkACLRuleDirection) as [[]|] eqn:Hd; try discriminate.
  destruct (m !! isNetworkACLRuleICMP) as [[]|] eqn:Hi; try discriminate.
  destruct (m !! isNetworkACLRuleTCP) as [[]|] eqn:Ht; try discriminate.
  destruct (m !! isNetworkACLRuleUDP) as [[]|] eqn:Hu; try discriminate.
  intros _. do 6 eexists. repeat split; eassumption.
Qed.

(** One turn of the loop on a rule of the schema. *)
Lemma validateInlineRules_cons (rule : Value) (rest : list Value) :
  schemaRule rule = true ->
  validateInlineRules (rule :: rest) =
    if negb (String.eqb (actionOf rule) "allow") && negb (String.eqb (actionOf rule) "deny")
    then Ret (Some (Errorf "[ERROR] Invalid action. valid values are allow|deny"))
    else if (1 <? populatedBlocks rule)%nat
         then Ret (Some (Errorf "Only one of icmp|tcp|udp can be defined per rule"))
         else validateInlineRules rest.
Proof.
  intros Hs. destruct (schemaRule_inv _ Hs) as (m & a & d & i & t & u & -> & Ha & Hd & Hi & Ht & Hu).
  unfold populatedBlocks, blockOf, actionOf. simpl. unfold index.
  rewrite Ha, Hd, Hi, Ht, Hu. simpl.
  destruct (negb (String.eqb a "allow") && negb (String.eqb a "deny")); [reflexivity|].
  destruct (nonEmpty i), (nonEmpty t), (nonEmpty u); reflexivity.
Qed.

Lemma schemaRule_withDirection (direction : string) (rule : Value) :
  schemaRule rule = true ->
  schemaRule (withDirection direction rule) = true
  /\ actionOf (withDirection direction rule) = actionOf rule
  /\ populatedBlocks (withDirection direction rule) = populatedBlocks rule.
Proof.
  intros Hs. destruct (schemaRule_inv _ Hs) as (m & a & d & i & t & u & -> & Ha & Hd & Hi & Ht & Hu).
  unfold populatedBlocks, blockOf, actionOf, withDirection, schemaRule.
  rewrite lookup_insert_eq.
  rewrite !lookup_insert_ne by discriminate.
  rewrite Ha, Hi, Ht, Hu. auto.
Qed.

(** C9. On rules of the schema, [validateInlineRules] returns nil
    exactly when every rule has the action allow or deny and populates
    at most one of icmp, tcp and udp; the direction is read and never
    checked, so that replacing the directions by any others leaves the
    result as it was. *)
Theorem validateInlineRules_nil_iff (rules : list Value) :
  Forall (fun rule => schemaRule rule = true) rules ->
  (validateInlineRules rules = Ret None <->
   Forall (fun rule => (actionOf rule = "allow" \/ actionOf rule = "deny")
                       /\ (populatedBlocks rule <= 1)%nat) rules)
  /\
  (forall direction : Value -> string,
     validateInlineRules (map (fun rule => withDirection (direction rule) rule) rules)
     = validateInlineRules rules).
Proof.
  intros Hs. split.
  - induction Hs as [|rule rest Hrule _ IH].
    + split; [constructor | reflexivity].
    + rewrite (validateInlineRules_cons _ _ Hrule).
      assert (Hact : negb (String.eqb (actionOf rule) "allow")
                     && negb (String.eqb (actionOf rule) "deny") = false
                     <-> actionOf rule = "allow" \/ actionOf rule = "deny").
      { destruct (String.eqb_spec (actionOf rule) "allow");
          destruct (String.eqb_spec (actionOf rule) "deny"); simpl;
          intuition congruence. }
      destruct (negb (String.eqb (actionOf rule) "allow")
                && negb (String.eqb (actionOf rule) "deny")).
      { split; [discriminate|].
        intros Hall. inversion Hall as [|? ? [Ha _] _]; subst.
        apply Hact in Ha. discriminate. }
      destruct (Nat.ltb_spec 1 (populatedBlocks rule)) as [Hp|Hp].
      { split; [discriminate|].
        intros Hall. inversion Hall as [|? ? [_ Hpop] _]; subst. lia. }
      rewrite IH. split.
      * intros Hrest. constructor; [|exact Hrest]. split; [apply Hact; reflexivity|lia].
      * intros Hall. inversion Hall; subst. assumption.
  - intros direction. induction Hs as [|rule rest Hrule _ IH]; [reflexivity|].
    destruct (schemaRule_withDirection (direction rule) _ Hrule) as (Hs' & Ha & Hp).
    simpl map. rewrite (validateInlineRules_cons _ _ Hs'), (validateInlineRules_cons _ _ Hrule).
    rewrite Ha, Hp, IH. reflexivity.
Qed.

Lemma validateInlineRules_nil_iff_witness :
  validateInlineRules [Testbed.sshRule; Testbed.pingRule] = Ret None
  /\ validateInlineRules
       (map (fun rule => withDirection "anywhere" rule) [Testbed.sshRule; Testbed.pingRule])
     = validateInlineRules [Testbed.sshRule; Testbed.pingRule].
Proof.
  assert (Hschema : Forall (fun rule => schemaRule rule = true)
                      [Testbed.sshRule; Testbed.pingRule])
    by (repeat constructor; vm_compute; reflexivity).
  split.
  - apply (proj1 (validateInlineRules_nil_iff _ Hschema)).
    repeat constructor; vm_compute; solve [auto | lia].
  - apply (proj2 (validateInlineRules_nil_iff _ Hschema) (fun _ => "anywhere")).
Defined.

(** ** Running a computation *)

Lemma extend_nil (w : World) : extend [] w = w.
Proof. destruct w. unfold extend. simpl. rewrite app_nil_r. reflexivity. Qed.

Lemma extend_record (e : Event) (events : list Event) (w : World) :
  extend events (record e w) = extend (e :: events) w.
Proof. unfold extend, record. simpl. rewrite <- app_assoc. reflexivity. Qed.

Lemma extend_extend (events events' : list Event) (w : World) :
  extend events' (extend events w) = extend (events ++ events') w.
Proof. unfold extend. simpl. rewrite <- app_assoc. reflexivity. Qed.


Lemma data_extend (events : list Event) (w : World) :
  data (extend events w) = data w.
Proof. reflexivity. Qed.

Lemma bindM_run {A B} (c : M A) (k : A -> M B) (w w' : World) (a : A) :
  c w = (Ret a, w') -> bindM c k w = k a w'.
Proof. intros Hc. unfold bindM. rewrite Hc. reflexivity. Qed.

Section Runs.

Context `{Collaborators}.

Lemma call_run (r : Request) (w : World) :
  call r w = (Ret (sdk (trace w) r), record (EvCall r) w).
Proof. reflexivity. Qed.

(** ** The paginated listings *)

(** The loop of the data source on a listing: it returns the managers
    of all pages in order, or the diagnostics of the failed fetch, and
    has made exactly the fetches of the listing. *)
Lemma dataSourceIBMISInstanceGroupManagersRead_pages_run
  (instanceGroupID : string) h start pages outcome :
  managerListing instanceGroupID h start pages outcome ->
  forall (w : World) (allrecs : list InstanceGroupManager.t) (fuel : nat),
    trace w = h ->
    (length (managerListingCalls instanceGroupID start pages outcome) <= fuel)%nat ->
    dataSourceIBMISInstanceGroupManagersRead_pages fuel instanceGroupID start allrecs w
    = (Ret match outcome with
           | None => inl (allrecs ++ allManagers pages)
           | Some (e, _) =>
               inr (GetDiag (TerraformErrorf (Some e)
                               ("ListInstanceGroupManagersWithContext failed " +:+ Error e)
                               "(Data) ibm_is_instance_group_managers" "read"))
           end,
       extend (managerListingCalls instanceGroupID start pages outcome) w).
Proof.
  induction 1 as [h start page response Hreply Hnext
                 |h start page response pages outcome Hreply Hnext _ IH
                 |h start result response e Hreply];
    intros w allrecs fuel Hw Hfuel; subst h;
    (destruct fuel as [|fuel]; [simpl in Hfuel; lia|]);
    simpl; unfold bindM; rewrite call_run, Hreply; simpl.
  - rewrite Hnext. simpl. unfold allManagers. simpl. rewrite app_nil_r. reflexivity.
  - destruct (decide _) as [E|_]; [contradiction|].
    rewrite (IH (record _ w) _ fuel); [|reflexivity|simpl in Hfuel; lia].
    rewrite extend_record. unfold allManagers. simpl. rewrite app_assoc. reflexivity.
  - reflexivity.
Qed.

(** The same for the first loop of [clearRules]. *)
Lemma clearRules_pages_run (nwaclid : string) h start pages outcome :
  ruleListing nwaclid h start pages outcome ->
  forall (w : World) (allrecs : list NetworkACLRuleItem) (fuel : nat),
    trace w = h ->
    (length (ruleListingCalls nwaclid start pages outcome) <= fuel)%nat ->
    clearRules_pages fuel nwaclid start allrecs w
    = (Ret match outcome with
           | None => inl (allrecs ++ allRules pages)
           | Some (e, response) =>
               inr (Errorf ("[ERROR] Error Listing network ACL rules : " +:+ Error e
                            +:+ newline +:+ fmtResponse response))
           end,
       extend (ruleListingCalls nwaclid start pages outcome) w).
Proof.
  induction 1 as [h start page response Hreply Hnext
                 |h start page response pages outcome Hreply Hnext _ IH
                 |h start result response e Hreply];
    intros w allrecs fuel Hw Hfuel; subst h;
    (destruct fuel as [|fuel]; [simpl in Hfuel; lia|]);
    simpl; unfold bindM; rewrite call_run, Hreply; simpl.
  - rewrite Hnext. simpl. unfold allRules. simpl. rewrite app_nil_r. reflexivity.
  - destruct (decide _) as [E|_]; [contradiction|].
    rewrite (IH (record _ w) _ fuel); [|reflexivity|simpl in Hfuel; lia].
    rewrite extend_record. unfold allRules. simpl. rewrite app_assoc. reflexivity.
  - reflexivity.
Qed.

End Runs.

Section Listing_properties.

Context `{Collaborators}.

Lemma managerListingCalls_length (instanceGroupID start : string) pages :
  length (managerListingCalls instanceGroupID start pages
            (@None (error * option DetailedResponse))) = length pages.
Proof.
  revert start. induction pages as [|page pages IH]; intros start; simpl;
    [reflexivity | rewrite IH; reflexivity].
Qed.

Lemma ruleListingCalls_length (nwaclid start : string) pages :
  length (ruleListingCalls nwaclid start pages
            (@None (error * option DetailedResponse))) = length pages.
Proof.
  revert start. induction pages as [|page pages IH]; intros start; simpl;
    [reflexivity | rewrite IH; reflexivity].
Qed.

Lemma managerListingCalls_failed_length (instanceGroupID start : string) pages
  (outcome : error * option DetailedResponse) :
  length (managerListingCalls instanceGroupID start pages (Some outcome)) = S (length pages).
Proof.
  revert start. induction pages as [|page pages IH]; intros start; simpl;
    [reflexivity | rewrite IH; reflexivity].
Qed.

Lemma ruleListingCalls_failed_length (nwaclid start : string) pages
  (outcome : error * option DetailedResponse) :
  length (ruleListingCalls nwaclid start pages (Some outcome)) = S (length pages).
Proof.
  revert start. induction pages as [|page pages IH]; intros start; simpl;
    [reflexivity | rewrite IH; reflexivity].
Qed.

(** C1. Whatever pages the successive fetches return, the loop of the
    instance group managers data source and the listing loop of
    [clearRules] accumulate the items of all pages, in the order of the
    pages and of the items in them, nothing dropped and nothing moved:
    the list a single fetch of everything would give. One fetch per
    page is all they need. A first page without items and without a
    cursor gives the empty list and no error. *)
Theorem paginated_listing_concatenates :
  (forall (instanceGroupID : string) pages (w : World) (fuel : nat),
     managerListing instanceGroupID (trace w) "" pages None ->
     (length pages <= fuel)%nat ->
     dataSourceIBMISInstanceGroupManagersRead_pages fuel instanceGroupID "" [] w
     = (Ret (inl (allManagers pages)),
        extend (managerListingCalls instanceGroupID "" pages
                  (@None (error * option DetailedResponse))) w))
  /\
  (forall (nwaclid : string) pages (w : World) (fuel : nat),
     ruleListing nwaclid (trace w) "" pages None ->
     (length pages <= fuel)%nat ->
     clearRules_pages fuel nwaclid "" [] w
     = (Ret (inl (allRules pages)),
        extend (ruleListingCalls nwaclid "" pages
                  (@None (error * option DetailedResponse))) w))
  /\
  (forall (instanceGroupID : string) page response (w : World) (fuel : nat),
     sdk (trace w) (ListInstanceGroupManagersWithContext
                      (listInstanceGroupManagerOptions instanceGroupID ""))
       = (Some page, response, None) ->
     InstanceGroupManagerCollection.Managers page = [] ->
     GetNext (InstanceGroupManagerCollection.Next page) = "" ->
     (1 <= fuel)%nat ->
     dataSourceIBMISInstanceGroupManagersRead_pages fuel instanceGroupID "" [] w
     = (Ret (inl []),
        extend [EvCall (ListInstanceGroupManagersWithContext
                          (listInstanceGroupManagerOptions instanceGroupID ""))] w))
  /\
  (forall (nwaclid : string) page response (w : World) (fuel : nat),
     sdk (trace w) (ListNetworkACLRules (listNetworkAclRulesOptions nwaclid ""))
       = (Some page, response, None) ->
     NetworkACLRuleCollection.Rules page = [] ->
     GetNext (NetworkACLRuleCollection.Next page) = "" ->
     (1 <= fuel)%nat ->
     clearRules_pages fuel nwaclid "" [] w
     = (Ret (inl []),
        extend [EvCall (ListNetworkACLRules (listNetworkAclRulesOptions nwaclid ""))] w)).
Proof.
  split; [|split; [|split]].
  - intros instanceGroupID pages w fuel Hpages Hfuel.
    apply (dataSourceIBMISInstanceGroupManagersRead_pages_run _ _ _ _ _ Hpages w [] fuel);
      [reflexivity | rewrite managerListingCalls_length; exact Hfuel].
  - intros nwaclid pages w fuel Hpages Hfuel.
    apply (clearRules_pages_run _ _ _ _ _ Hpages w [] fuel);
      [reflexivity | rewrite ruleListingCalls_length; exact Hfuel].
  - intros instanceGroupID page response w fuel Hreply Hempty Hnext Hfuel.
    pose proof (managerListing_last instanceGroupID _ _ _ _ Hreply Hnext) as Hpages.
    rewrite (dataSourceIBMISInstanceGroupManagersRead_pages_run _ _ _ _ _ Hpages w [] fuel);
      [|reflexivity|exact Hfuel].
    unfold allManagers. simpl. rewrite Hempty. reflexivity.
  - intros nwaclid page response w fuel Hreply Hempty Hnext Hfuel.
    pose proof (ruleListing_last nwaclid _ _ _ _ Hreply Hnext) as Hpages.
    rewrite (clearRules_pages_run _ _ _ _ _ Hpages w [] fuel);
      [|reflexivity|exact Hfuel].
    unfold allRules. simpl. rewrite Hempty. reflexivity.
Qed.

End Listing_properties.

Lemma paginated_listing_concatenates_witness :
  dataSourceIBMISInstanceGroupManagersRead_pages (H := Testbed.collaborators)
    2 "group-1" "" [] (Testbed.world (Testbed.resourceData "" ∅ ∅))
  = (Ret (inl [Testbed.manager "m1"; Testbed.manager "m2"; Testbed.manager "m3"]),
     extend [EvCall (ListInstanceGroupManagersWithContext
                       (listInstanceGroupManagerOptions "group-1" ""));
             EvCall (ListInstanceGroupManagersWithContext
                       (listInstanceGroupManagerOptions "group-1" "p2"))]
       (Testbed.world (Testbed.resourceData "" ∅ ∅)))
  /\
  clearRules_pages (H := Testbed.collaborators)
    2 "acl-1" "" [] (Testbed.world (Testbed.resourceData "" ∅ ∅))
  = (Ret (inl (NetworkACLRuleCollection.Rules Testbed.rulePage1
               ++ NetworkACLRuleCollection.Rules Testbed.rulePage2)),
     extend [EvCall (ListNetworkACLRules (listNetworkAclRulesOptions "acl-1" ""));
             EvCall (ListNetworkACLRules (listNetworkAclRulesOptions "acl-1" "p2"))]
       (Testbed.world (Testbed.resourceData "" ∅ ∅)))
  /\
  dataSourceIBMISInstanceGroupManagersRead_pages (H := Testbed.collaborators)
    1 "empty" "" [] (Testbed.world (Testbed.resourceData "" ∅ ∅))
  = (Ret (inl []),
     extend [EvCall (ListInstanceGroupManagersWithContext
                       (listInstanceGroupManagerOptions "empty" ""))]
       (Testbed.world (Testbed.resourceData "" ∅ ∅)))
  /\
  clearRules_pages (H := Testbed.collaborators)
    1 "empty" "" [] (Testbed.world (Testbed.resourceData "" ∅ ∅))
  = (Ret (inl []),
     extend [EvCall (ListNetworkACLRules (listNetworkAclRulesOptions "empty" ""))]
       (Testbed.world (Testbed.resourceData "" ∅ ∅))).
Proof.
  pose proof (@paginated_listing_concatenates Testbed.collaborators)
    as (Hmanagers & Hrules & Hnomanagers & Hnorules).
  split; [|split; [|split]].
  - apply (Hmanagers "group-1" [Testbed.managerPage1; Testbed.managerPage2]).
    + eapply managerListing_next; [reflexivity | discriminate |].
      eapply managerListing_last; reflexivity.
    + simpl. lia.
  - apply (Hrules "acl-1" [Testbed.rulePage1; Testbed.rulePage2]).
    + eapply ruleListing_next; [reflexivity | discriminate |].
      eapply ruleListing_last; reflexivity.
    + simpl. lia.
  - eapply (Hnomanagers "empty" Testbed.emptyManagerPage); solve [reflexivity | lia].
  - eapply (Hnorules "empty" Testbed.emptyRulePage); solve [reflexivity | lia].
Defined.

Section Listing_failures.

Context `{Collaborators}.

(** C7. When a page fetch fails, after any number of pages fetched
    well, both operations stop at once with an error made from that
    of the fetch: the data source returns its diagnostics and leaves
    the resource data as it was, no manager of an earlier page stored
    and no identifier set, and [clearRules] returns the error without
    a delete call for any rule of an earlier page; nothing is called
    after the failed fetch. *)
Theorem page_fetch_error_aborts :
  (forall (meta : Meta) (instanceGroupID : string) pages e response (w : World) (fuel : nat),
     vpcClient meta = None ->
     d_Get "instance_group" w = (Ret (VString instanceGroupID), w) ->
     managerListing instanceGroupID (trace w) "" pages (Some (e, response)) ->
     (length pages < fuel)%nat ->
     dataSourceIBMISInstanceGroupManagersRead fuel meta w
     = (Ret (GetDiag (TerraformErrorf (Some e)
                        ("ListInstanceGroupManagersWithContext failed " +:+ Error e)
                        "(Data) ibm_is_instance_group_managers" "read")),
        extend (managerListingCalls instanceGroupID "" pages (Some (e, response))) w))
  /\
  (forall (nwaclid : string) pages e response (w : World) (fuel : nat),
     ruleListing nwaclid (trace w) "" pages (Some (e, response)) ->
     (length pages < fuel)%nat ->
     clearRules fuel nwaclid w
     = (Ret (Some (Errorf ("[ERROR] Error Listing network ACL rules : " +:+ Error e
                           +:+ newline +:+ fmtResponse response))),
        extend (ruleListingCalls nwaclid "" pages (Some (e, response))) w)).
Proof.
  split.
  - intros meta instanceGroupID pages e response w fuel Hclient Hid Hpages Hfuel.
    unfold dataSourceIBMISInstanceGroupManagersRead. rewrite Hclient.
    rewrite (bindM_run _ _ _ _ _ Hid).
    rewrite (bindM_run _ _ w w (instanceGroupID)) by reflexivity.
    erewrite bindM_run;
      [|apply (dataSourceIBMISInstanceGroupManagersRead_pages_run _ _ _ _ _ Hpages w [] fuel);
        [reflexivity | rewrite managerListingCalls_failed_length; lia]].
    reflexivity.
  - intros nwaclid pages e response w fuel Hpages Hfuel.
    unfold clearRules.
    erewrite bindM_run;
      [|apply (clearRules_pages_run _ _ _ _ _ Hpages w [] fuel);
        [reflexivity | rewrite ruleListingCalls_failed_length; lia]].
    reflexivity.
Qed.

End Listing_failures.

Lemma page_fetch_error_aborts_witness :
  dataSourceIBMISInstanceGroupManagersRead (H := Testbed.collaborators) 2 Testbed.meta
    (Testbed.world (Testbed.resourceData "" {["instance_group" := VString "flaky"]} ∅))
  = (Ret (GetDiag (TerraformErrorf (Some (ErrorString "service unavailable"))
                     "ListInstanceGroupManagersWithContext failed service unavailable"
                     "(Data) ibm_is_instance_group_managers" "read")),
     extend [EvCall (ListInstanceGroupManagersWithContext
                       (listInstanceGroupManagerOptions "flaky" ""));
             EvCall (ListInstanceGroupManagersWithContext
                       (listInstanceGroupManagerOptions "flaky" "p2"))]
       (Testbed.world (Testbed.resourceData "" {["instance_group" := VString "flaky"]} ∅)))
  /\
  clearRules (H := Testbed.collaborators) 2 "flaky"
    (Testbed.world (Testbed.resourceData "" ∅ ∅))
  = (Ret (Some (Errorf ("[ERROR] Error Listing network ACL rules : service unavailable"
                        +:+ newline +:+ ""))),
     extend [EvCall (ListNetworkACLRules (listNetworkAclRulesOptions "flaky" ""));
             EvCall (ListNetworkACLRules (listNetworkAclRulesOptions "flaky" "p2"))]
       (Testbed.world (Testbed.resourceData "" ∅ ∅))).
Proof.
  pose proof (@page_fetch_error_aborts Testbed.collaborators) as (Hmanagers & Hrules).
  split.
  - apply (Hmanagers Testbed.meta "flaky" [Testbed.managerPage1]
             (ErrorString "service unavailable") (Testbed.response 503)).
    + reflexivity.
    + vm_compute. reflexivity.
    + eapply managerListing_next; [reflexivity | discriminate |].
      eapply managerListing_error. reflexivity.
    + simpl. lia.
  - apply (Hrules "flaky" [Testbed.rulePage1]
             (ErrorString "service unavailable") (Testbed.response 503)).
    + eapply ruleListing_next; [reflexivity | discriminate |].
      eapply ruleListing_error. reflexivity.
    + simpl. lia.
Defined.

(** ** Reads of a resource that is gone *)

Section Not_found.

Context `{Collaborators}.

Lemma statusIs404_true (response : option DetailedResponse) (r : DetailedResponse) :
  response = Some r -> StatusCode r = 404 -> statusIs404 response = true.
Proof. intros -> Hr. simpl. rewrite Hr. reflexivity. Qed.

Lemma statusIs404_false (response : option DetailedResponse) :
  (forall r, response = Some r -> StatusCode r <> 404) -> statusIs404 response = false.
Proof.
  destruct response as [r|]; [|reflexivity].
  intros Hr. simpl. apply Z.eqb_neq. apply Hr. reflexivity.
Qed.

(** C5. When the get call of the network ACL read, or of the read of
    the floating IP of a bare metal server network interface, fails
    with the HTTP status 404, the read sets the identifier of the
    resource to the empty string and returns no diagnostics; when it
    fails in any other way, with another status or without a response,
    the read returns the diagnostics of that error and leaves the
    resource data alone. *)
Theorem read_not_found_clears_id :
  (forall (meta : Meta) (nwacl : option NetworkACL.t) response e (w : World),
     vpcClient meta = None ->
     sdk (trace w) (GetNetworkACLWithContext (rd_Id (data w))) = (nwacl, response, Some e) ->
     (forall r, response = Some r -> StatusCode r = 404 ->
        exists w',
          resourceIBMISNetworkACLRead meta w = (Ret [], w')
          /\ rd_Id (data w') = ""
          /\ trace w' = trace w ++ [EvCall (GetNetworkACLWithContext (rd_Id (data w)))])
     /\
     ((forall r, response = Some r -> StatusCode r <> 404) ->
        resourceIBMISNetworkACLRead meta w
        = (Ret (GetDiag (TerraformErrorf (Some e)
                           ("GetNetworkACLWithContext failed: " +:+ Error e)
                           "ibm_is_network_acl" "read")),
           extend [EvCall (GetNetworkACLWithContext (rd_Id (data w)))] w)))
  /\
  (forall (meta : Meta) (bareMetalServerId nicID fipId : string)
          (fip : option FloatingIP.t) response e (w : World),
     vpcClient meta = None ->
     ParseNICFipTerraformID (rd_Id (data w)) = (bareMetalServerId, nicID, fipId, None) ->
     sdk (trace w) (GetBareMetalServerNetworkInterfaceFloatingIPWithContext
                      (getBmsNicFloatingIpOptions bareMetalServerId nicID fipId))
       = (fip, response, Some e) ->
     (forall r, response = Some r -> StatusCode r = 404 ->
        exists w',
          resourceIBMISBareMetalServerNetworkInterfaceFloatingIpRead meta w = (Ret [], w')
          /\ rd_Id (data w') = ""
          /\ trace w' = trace w ++
               [EvCall (GetBareMetalServerNetworkInterfaceFloatingIPWithContext
                          (getBmsNicFloatingIpOptions bareMetalServerId nicID fipId))])
     /\
     ((forall r, response = Some r -> StatusCode r <> 404) ->
        resourceIBMISBareMetalServerNetworkInterfaceFloatingIpRead meta w
        = (Ret (GetDiag (TerraformErrorf (Some e)
                           ("GetBareMetalServerNetworkInterfaceFloatingIPWithContext failed: "
                            +:+ Error e)
                           fipResource "read")),
           extend [EvCall (GetBareMetalServerNetworkInterfaceFloatingIPWithContext
                             (getBmsNicFloatingIpOptions bareMetalServerId nicID fipId))] w))).
Proof.
  split.
  - intros meta nwacl response e w Hclient Hreply.
    unfold resourceIBMISNetworkACLRead, nwaclGet, d_Id, bindM. rewrite Hclient.
    rewrite call_run, Hreply. simpl. split.
    + intros r Hr H404. rewrite (statusIs404_true _ _ Hr H404). simpl.
      eexists. split; [reflexivity|]. split; reflexivity.
    + intros Hother. rewrite (statusIs404_false _ Hother). reflexivity.
  - intros meta bareMetalServerId nicID fipId fip response e w Hclient Hid Hreply.
    unfold resourceIBMISBareMetalServerNetworkInterfaceFloatingIpRead, d_Id, bindM.
    rewrite Hid, Hclient. rewrite call_run, Hreply. simpl. split.
    + intros r Hr H404. rewrite (statusIs404_true _ _ Hr H404). simpl.
      eexists. split; [reflexivity|]. split; reflexivity.
    + intros Hother. rewrite (statusIs404_false _ Hother). reflexivity.
Qed.

(** C6. When the status fetch of the delete poller fails with the HTTP
    status 404, the refresh function reports the state deleted and no
    error, whatever was observed before; when the fetch fails in any
    other way it reports the state failed together with an error. *)
Theorem delete_refresh_not_found_is_deleted
  (bareMetalServerId nicId fipId : string) (fip : option FloatingIP.t)
  (response : option DetailedResponse) (e : error) (w : World) :
  sdk (trace w) (GetBareMetalServerNetworkInterfaceFloatingIP
                   (getBmsNicFloatingIpOptions bareMetalServerId nicId fipId))
    = (fip, response, Some e) ->
  (forall r, response = Some r -> StatusCode r = 404 ->
     isBareMetalServerNetworkInterfaceFloatingIpDeleteRefreshFunc bareMetalServerId nicId fipId w
     = (Ret (fip, "deleted", None),
        extend [EvCall (GetBareMetalServerNetworkInterfaceFloatingIP
                          (getBmsNicFloatingIpOptions bareMetalServerId nicId fipId))] w))
  /\
  ((forall r, response = Some r -> StatusCode r <> 404) ->
     isBareMetalServerNetworkInterfaceFloatingIpDeleteRefreshFunc bareMetalServerId nicId fipId w
     = (Ret (fip, "failed",
             Some (Errorf ("[ERROR] Error getting Bare Metal Server(" +:+ bareMetalServerId
                           +:+ ") Network Interface (" +:+ nicId +:+ ") FloatingIp(" +:+ fipId
                           +:+ ") : " +:+ Error e +:+ newline +:+ fmtResponse response))),
        extend [EvCall (GetBareMetalServerNetworkInterfaceFloatingIP
                          (getBmsNicFloatingIpOptions bareMetalServerId nicId fipId))] w)).
Proof.
  intros Hreply.
  unfold isBareMetalServerNetworkInterfaceFloatingIpDeleteRefreshFunc, bindM.
  rewrite call_run, Hreply. simpl. split.
  - intros r Hr H404. rewrite (statusIs404_true _ _ Hr H404). reflexivity.
  - intros Hother. rewrite (statusIs404_false _ Hother). reflexivity.
Qed.

End Not_found.

Lemma read_not_found_clears_id_witness :
  (exists w',
     resourceIBMISNetworkACLRead (H := Testbed.collaborators) Testbed.meta
       (Testbed.world (Testbed.resourceData "gone" ∅ ∅)) = (Ret [], w')
     /\ rd_Id (data w') = "" /\ trace w' = [EvCall (GetNetworkACLWithContext "gone")])
  /\
  resourceIBMISNetworkACLRead (H := Testbed.collaborators) Testbed.meta
    (Testbed.world (Testbed.resourceData "broken" ∅ ∅))
  = (Ret (GetDiag (TerraformErrorf (Some (ErrorString "internal error"))
                     "GetNetworkACLWithContext failed: internal error"
                     "ibm_is_network_acl" "read")),
     extend [EvCall (GetNetworkACLWithContext "broken")]
       (Testbed.world (Testbed.resourceData "broken" ∅ ∅)))
  /\
  (exists w',
     resourceIBMISBareMetalServerNetworkInterfaceFloatingIpRead (H := Testbed.collaborators)
       Testbed.meta (Testbed.world (Testbed.resourceData "bms/nic/gone" ∅ ∅)) = (Ret [], w')
     /\ rd_Id (data w') = ""
     /\ trace w' = [EvCall (GetBareMetalServerNetworkInterfaceFloatingIPWithContext
                              (getBmsNicFloatingIpOptions "bms" "nic" "gone"))])
  /\
  resourceIBMISBareMetalServerNetworkInterfaceFloatingIpRead (H := Testbed.collaborators)
    Testbed.meta (Testbed.world (Testbed.resourceData "bms/nic/broken" ∅ ∅))
  = (Ret (GetDiag (TerraformErrorf (Some (ErrorString "internal error"))
                     "GetBareMetalServerNetworkInterfaceFloatingIPWithContext failed: internal error"
                     fipResource "read")),
     extend [EvCall (GetBareMetalServerNetworkInterfaceFloatingIPWithContext
                       (getBmsNicFloatingIpOptions "bms" "nic" "broken"))]
       (Testbed.world (Testbed.resourceData "bms/nic/broken" ∅ ∅))).
Proof.
  pose proof (@read_not_found_clears_id Testbed.collaborators) as (Hacl & Hfip).
  split; [|split; [|split]].
  - refine (proj1 (Hacl Testbed.meta None (Testbed.response 404)
                     (ErrorString "network acl not found")
                     (Testbed.world (Testbed.resourceData "gone" ∅ ∅)) eq_refl eq_refl)
              {| StatusCode := 404; ResponseText := "" |} eq_refl eq_refl).
  - refine (proj2 (Hacl Testbed.meta None (Testbed.response 500)
                     (ErrorString "internal error")
                     (Testbed.world (Testbed.resourceData "broken" ∅ ∅)) eq_refl eq_refl) _).
    intros r [= <-]. discriminate.
  - refine (proj1 (Hfip Testbed.meta "bms" "nic" "gone" None (Testbed.response 404)
                     (ErrorString "floating ip not found")
                     (Testbed.world (Testbed.resourceData "bms/nic/gone" ∅ ∅))
                     eq_refl eq_refl eq_refl)
              {| StatusCode := 404; ResponseText := "" |} eq_refl eq_refl).
  - refine (proj2 (Hfip Testbed.meta "bms" "nic" "broken" None (Testbed.response 500)
                     (ErrorString "internal error")
                     (Testbed.world (Testbed.resourceData "bms/nic/broken" ∅ ∅))
                     eq_refl eq_refl eq_refl) _).
    intros r [= <-]. discriminate.
Defined.

Lemma delete_refresh_not_found_is_deleted_witness :
  isBareMetalServerNetworkInterfaceFloatingIpDeleteRefreshFunc (H := Testbed.collaborators)
    "bms" "nic" "gone"
    (extend [EvCall (GetBareMetalServerNetworkInterfaceFloatingIP
                       (getBmsNicFloatingIpOptions "bms" "nic" "gone"))]
       (Testbed.world (Testbed.resourceData "bms/nic/gone" ∅ ∅)))
  = (Ret (None, "deleted", None),
     extend [EvCall (GetBareMetalServerNetworkInterfaceFloatingIP
                       (getBmsNicFloatingIpOptions "bms" "nic" "gone"))]
       (extend [EvCall (GetBareMetalServerNetworkInterfaceFloatingIP
                          (getBmsNicFloatingIpOptions "bms" "nic" "gone"))]
          (Testbed.world (Testbed.resourceData "bms/nic/gone" ∅ ∅))))
  /\
  isBareMetalServerNetworkInterfaceFloatingIpDeleteRefreshFunc (H := Testbed.collaborators)
    "bms" "nic" "broken" (Testbed.world (Testbed.resourceData "bms/nic/broken" ∅ ∅))
  = (Ret (None, "failed",
          Some (Errorf ("[ERROR] Error getting Bare Metal Server(bms) Network Interface (nic) "
                        +:+ "FloatingIp(broken) : internal error" +:+ newline +:+ ""))),
     extend [EvCall (GetBareMetalServerNetworkInterfaceFloatingIP
                       (getBmsNicFloatingIpOptions "bms" "nic" "broken"))]
       (Testbed.world (Testbed.resourceData "bms/nic/broken" ∅ ∅))).
Proof.
  split.
  - refine (proj1 (@delete_refresh_not_found_is_deleted Testbed.collaborators
                     "bms" "nic" "gone" None (Testbed.response 404)
                     (ErrorString "floating ip not found") _ eq_refl)
              {| StatusCode := 404; ResponseText := "" |} eq_refl eq_refl).
  - refine (proj2 (@delete_refresh_not_found_is_deleted Testbed.collaborators
                     "bms" "nic" "broken" None (Testbed.response 500)
                     (ErrorString "internal error") _ eq_refl) _).
    intros r [= <-]. discriminate.
Defined.

(** ** Creation of the inline rules *)

Section Inline_rules.

Context `{Collaborators}.

(** The loop on rules whose prototypes are [templates]: it stops at
    the first creation call that fails, and otherwise goes through
    all of them. *)
Lemma createInlineRules_loop_run (nwaclid : string) (rules : list Value)
  (templates : list NetworkACLRulePrototype.t) :
  Forall2 (fun rule template => ruleTemplate "" rule = Ret template) rules templates ->
  forall w : World,
    ((forall i template,
        templates !! i = Some template ->
        snd (sdk (trace w ++ createCalls nwaclid (take i templates))
               (CreateNetworkACLRule (createNetworkAclRuleOptions nwaclid template))) = None) ->
     createInlineRules_loop nwaclid "" rules w
     = (Ret None, extend (createCalls nwaclid templates) w))
    /\
    (forall k template result response e,
       templates !! k = Some template ->
       (forall i template',
          (i < k)%nat -> templates !! i = Some template' ->
          snd (sdk (trace w ++ createCalls nwaclid (take i templates))
                 (CreateNetworkACLRule (createNetworkAclRuleOptions nwaclid template'))) = None) ->
       sdk (trace w ++ createCalls nwaclid (take k templates))
         (CreateNetworkACLRule (createNetworkAclRuleOptions nwaclid template))
       = (result, response, Some e) ->
       createInlineRules_loop nwaclid "" rules w
       = (Ret (Some (Errorf ("[ERROR] Error Creating network ACL rule : " +:+ Error e
                             +:+ newline +:+ fmtResponse response))),
          extend (createCalls nwaclid (take (S k) templates)) w)).
Proof.
  induction 1 as [|rule template rules templates Htemplate _ IH]; intros w.
  - split.
    + intros _. simpl. unfold ret. rewrite extend_nil. reflexivity.
    + intros k template result response e Hk. discriminate.
  - split.
    + intros Hall. simpl. unfold bindM, lift. rewrite Htemplate, call_run.
      pose proof (Hall 0%nat template eq_refl) as H0. simpl in H0. rewrite app_nil_r in H0.
      destruct (sdk (trace w) _) as [[result response] err]. simpl in H0. subst err.
      rewrite (proj1 (IH (record _ w))).
      * rewrite extend_record. reflexivity.
      * intros i template' Hi. specialize (Hall (S i) template' Hi).
        simpl in Hall |- *. rewrite <- app_assoc. exact Hall.
    + intros k template' result response e Hk Hbefore Hfail.
      simpl. unfold bindM, lift. rewrite Htemplate, call_run.
      destruct k as [|k].
      * injection Hk as <-. simpl in Hfail. rewrite app_nil_r in Hfail.
        rewrite Hfail. reflexivity.
      * pose proof (Hbefore 0%nat template ltac:(lia) eq_refl) as H0.
        simpl in H0. rewrite app_nil_r in H0.
        destruct (sdk (trace w) _) as [[result0 response0] err]. simpl in H0. subst err.
        rewrite (proj2 (IH (record _ w)) k template' result response e Hk).
        -- rewrite extend_record. reflexivity.
        -- intros i t Hi Ht. specialize (Hbefore (S i) t ltac:(lia) Ht).
           simpl in Hbefore |- *. rewrite <- app_assoc. exact Hbefore.
        -- simpl in Hfail |- *. rewrite <- app_assoc. exact Hfail.
Qed.

(** C10. On rules of which each yields a prototype, [createInlineRules]
    issues one [CreateNetworkACLRule] call per rule, in the order of the
    list, and returns nil when all succeed. When the call for a rule
    fails it returns the error of that call at once: the calls before
    it have been made and have succeeded, and nothing follows, neither
    a call for a later rule nor a delete for an earlier one. *)
Theorem createInlineRules_one_call_per_rule (nwaclid : string) (rules : list Value)
  (templates : list NetworkACLRulePrototype.t) (w : World) :
  Forall2 (fun rule template => ruleTemplate "" rule = Ret template) rules templates ->
  ((forall i template,
      templates !! i = Some template ->
      snd (sdk (trace w ++ createCalls nwaclid (take i templates))
             (CreateNetworkACLRule (createNetworkAclRuleOptions nwaclid template))) = None) ->
   createInlineRules nwaclid rules w
   = (Ret None, extend (createCalls nwaclid templates) w))
  /\
  (forall k template result response e,
     templates !! k = Some template ->
     (forall i template',
        (i < k)%nat -> templates !! i = Some template' ->
        snd (sdk (trace w ++ createCalls nwaclid (take i templates))
               (CreateNetworkACLRule (createNetworkAclRuleOptions nwaclid template'))) = None) ->
     sdk (trace w ++ createCalls nwaclid (take k templates))
       (CreateNetworkACLRule (createNetworkAclRuleOptions nwaclid template))
     = (result, response, Some e) ->
     createInlineRules nwaclid rules w
     = (Ret (Some (Errorf ("[ERROR] Error Creating network ACL rule : " +:+ Error e
                           +:+ newline +:+ fmtResponse response))),
        extend (createCalls nwaclid (take (S k) templates)) w)).
Proof.
  intros Htemplates. exact (createInlineRules_loop_run nwaclid rules templates Htemplates w).
Qed.

End Inline_rules.

Lemma createInlineRules_one_call_per_rule_witness :
  createInlineRules (H := Testbed.collaborators) "acl-1"
    [Testbed.sshRule; Testbed.pingRule] (Testbed.world (Testbed.resourceData "acl-1" ∅ ∅))
  = (Ret None,
     extend (createCalls "acl-1" [Testbed.sshTemplate; Testbed.pingTemplate])
       (Testbed.world (Testbed.resourceData "acl-1" ∅ ∅)))
  /\
  createInlineRules (H := Testbed.collaborators) "acl-1"
    [Testbed.sshRule; Testbed.refusedRule; Testbed.pingRule]
    (Testbed.world (Testbed.resourceData "acl-1" ∅ ∅))
  = (Ret (Some (Errorf ("[ERROR] Error Creating network ACL rule : bad request"
                        +:+ newline +:+ ""))),
     extend (createCalls "acl-1" [Testbed.sshTemplate; Testbed.refusedTemplate])
       (Testbed.world (Testbed.resourceData "acl-1" ∅ ∅))).
Proof.
  split.
  - apply (proj1 (@createInlineRules_one_call_per_rule Testbed.collaborators "acl-1"
                    [Testbed.sshRule; Testbed.pingRule]
                    [Testbed.sshTemplate; Testbed.pingTemplate] _
                    ltac:(repeat constructor; vm_compute; reflexivity))).
    intros [|[|i]] template Hi; simpl in Hi; try discriminate;
      injection Hi as <-; reflexivity.
  - apply (proj2 (@createInlineRules_one_call_per_rule Testbed.collaborators "acl-1"
                    [Testbed.sshRule; Testbed.refusedRule; Testbed.pingRule]
                    [Testbed.sshTemplate; Testbed.refusedTemplate; Testbed.pingTemplate] _
                    ltac:(repeat constructor; vm_compute; reflexivity))
             1%nat Testbed.refusedTemplate None (Testbed.response 400)
             (ErrorString "bad request")).
    + reflexivity.
    + intros [|i] template Hi Ht; [|lia]. injection Ht as <-. reflexivity.
    + reflexivity.
Defined.

(** ** Creation of a network ACL *)

Section Create.
Context `{Collaborators}.





Lemma d_GetOk_configured (key s : string) (w : World) :
  configured (data w) key = Some s -> d_GetOk key w = (Ret (VString s, true), w).
Proof.
  unfold configured, d_GetOk.
  destruct (rd_values (data w) !! key) as [[]|]; try discriminate.
  simpl. destruct (decide _); [discriminate|]. intros [= ->]. reflexivity.
Qed.

Lemma d_GetOk_stringOrUnset (key : string) (w : World) :
  stringOrUnset (data w) key ->
  exists grp ok,
    d_GetOk key w = (Ret (grp, ok), w)
    /\ (if ok then lift (s <~ asString grp ;; Ret (Some s)) else ret None) w
       = (Ret (configured (data w) key), w).
Proof.
  unfold stringOrUnset, configured, d_GetOk.
  destruct (rd_values (data w) !! key) as [[]|]; try contradiction; intros _.
  - do 2 eexists. split; [reflexivity|]. simpl.
    destruct (decide _); reflexivity.
  - do 2 eexists. split; reflexivity.
Qed.



End Create.



(** ** Validation before the remote calls *)

Lemma validateInlineRules_conflict (rules : list Value) :
  Forall (fun rule => schemaRule rule = true) rules ->
  Exists (fun rule => (1 < populatedBlocks rule)%nat) rules ->
  exists e, validateInlineRules rules = Ret (Some e).
Proof.
  induction 1 as [|rule rest Hrule _ IH]; intros Hconflict.
  - inversion Hconflict.
  - rewrite (validateInlineRules_cons _ _ Hrule).
    destruct (negb _ && negb _); [eauto|].
    destruct (Nat.ltb_spec 1 (populatedBlocks rule)) as [Hp|Hp]; [eauto|].
    apply IH. inversion Hconflict; subst; [lia|assumption].
Qed.

Section Validation_first.

Context `{Collaborators}.

(** The create path: with a rule that populates more than one
    sub-block the validation error comes back and nothing has been
    called; the world is as it was. *)
Lemma nwaclCreate_conflict_makes_no_call (fuel : nat) (meta : Meta) (name vpc : string)
  (rules : list Value) (w : World) :
  vpcClient meta = None ->
  configured (data w) isNetworkACLVPC = Some vpc ->
  stringOrUnset (data w) isNetworkACLResourceGroup ->
  rd_values (data w) !! isNetworkACLRules = Some (VList rules) ->
  Forall (fun rule => schemaRule rule = true) rules ->
  Exists (fun rule => (1 < populatedBlocks rule)%nat) rules ->
  exists e,
    nwaclCreate fuel meta name w
    = (Ret (GetDiag (DiscriminatedTerraformErrorf (Some e) (Error e)
                       "ibm_is_network_acl" "create" "validate-inline-rules")), w).
Proof.
  intros Hclient Hvpc Hrg Hrules Hschema Hconflict.
  destruct (validateInlineRules_conflict _ Hschema Hconflict) as [e He].
  exists e. unfold nwaclCreate. rewrite Hclient.
  rewrite (bindM_run _ _ _ _ _ (d_GetOk_configured _ _ _ Hvpc)). cbv beta iota.
  cbn [negb].
  rewrite (bindM_run _ _ w w vpc) by reflexivity.
  destruct (d_GetOk_stringOrUnset _ _ Hrg) as (grp & ok & Hgrp & Hgroup).
  rewrite (bindM_run _ _ _ _ _ Hgrp). cbv beta iota.
  rewrite (bindM_run _ _ _ _ _ Hgroup).
  assert (Hok : d_GetOk isNetworkACLRules w = (Ret (VList rules, true), w)).
  { unfold d_GetOk. rewrite Hrules. destruct rules; [inversion Hconflict|reflexivity]. }
  rewrite (bindM_run _ _ _ _ _ Hok). cbv beta iota.
  rewrite (bindM_run _ _ w w rules) by reflexivity.
  rewrite (bindM_run _ _ w w (Some e)) by (unfold lift; rewrite He; reflexivity).
  reflexivity.
Qed.

(** The update path when neither the name nor the tags change: the
    same. *)
Lemma nwaclUpdate_conflict_makes_no_call (fuel : nat) (meta : Meta) (id name : string)
  (rules : list Value) (w : World) :
  vpcClient meta = None ->
  rd_values (data w) !! isNetworkACLRules = Some (VList rules) ->
  isNetworkACLTags ∉ rd_changed (data w) ->
  isNetworkACLAccessTags ∉ rd_changed (data w) ->
  isNetworkACLRules ∈ rd_changed (data w) ->
  Forall (fun rule => schemaRule rule = true) rules ->
  Exists (fun rule => (1 < populatedBlocks rule)%nat) rules ->
  exists e,
    nwaclUpdate fuel meta id name false w
    = (Ret (GetDiag (TerraformErrorf (Some e) ("validateInlineRules failed: " +:+ Error e)
                       "ibm_is_network_acl" "update")), w).
Proof.
  intros Hclient Hrules Htags Haccess Hchanged Hschema Hconflict.
  destruct (validateInlineRules_conflict _ Hschema Hconflict) as [e He].
  exists e. unfold nwaclUpdate. rewrite Hclient.
  rewrite (bindM_run _ _ w w (VList rules)) by (unfold d_Get; rewrite Hrules; reflexivity).
  rewrite (bindM_run _ _ w w rules) by reflexivity.
  cbv beta iota zeta.
  assert (Hno : forall key tagType, key ∉ rd_changed (data w) ->
                  updateTagsIfChanged key tagType w = (Ret tt, w)).
  { intros key tagType Hkey. unfold updateTagsIfChanged.
    rewrite (bindM_run _ _ w w false); [reflexivity|].
    unfold d_HasChange. rewrite bool_decide_eq_false_2 by exact Hkey. reflexivity. }
  rewrite (bindM_run _ _ _ _ _ (Hno _ _ Htags)).
  rewrite (bindM_run _ _ _ _ _ (Hno _ _ Haccess)).
  rewrite (bindM_run _ _ w w true)
    by (unfold d_HasChange; rewrite bool_decide_eq_true_2 by exact Hchanged; reflexivity).
  rewrite (bindM_run _ _ w w (Some e)) by (unfold lift; rewrite He; reflexivity).
  reflexivity.
Qed.

End Validation_first.

(** C4. The claim holds for the create and fails for the update: with
    the name changed and a rule that populates both icmp and tcp,
    [nwaclUpdate] sends the rename to the remote side first and only
    then fails the validation. *)
Theorem nwaclUpdate_renames_before_validating :
  (1 < populatedBlocks Testbed.conflictingRule)%nat
  /\
  fst (nwaclUpdate (H := Testbed.collaborators) 1 Testbed.meta "acl-1" "renamed" true
         (Testbed.world
            (Testbed.resourceData "acl-1"
               {[isNetworkACLRules := VList [Testbed.conflictingRule]]}
               {[isNetworkACLRules]})))
  = Ret (GetDiag
           (TerraformErrorf
              (Some (Errorf "Only one of icmp|tcp|udp can be defined per rule"))
              "validateInlineRules failed: Only one of icmp|tcp|udp can be defined per rule"
              "ibm_is_network_acl" "update"))
  /\
  trace (snd (nwaclUpdate (H := Testbed.collaborators) 1 Testbed.meta "acl-1" "renamed" true
                (Testbed.world
                   (Testbed.resourceData "acl-1"
                      {[isNetworkACLRules := VList [Testbed.conflictingRule]]}
                      {[isNetworkACLRules]}))))
  = [EvCall (UpdateNetworkACLWithContext
               {| UpdateNetworkACLOptions.ID := "acl-1";
                  UpdateNetworkACLOptions.NetworkACLPatch := {["name" := VString "renamed"]} |})].
Proof.
  split; [vm_compute; lia|]. split; vm_compute; reflexivity.
Qed.

(** ** The availability poller *)

Section Poller.
Context `{Collaborators}.










End Poller.


(** * Further properties *)

(** ** Identifiers, decoded *)

Lemma Split_not_nil (s : string) (sep : ascii) : Split s sep <> nil.
Proof.
  destruct s as [|c s]; simpl; [discriminate|].
  destruct (Ascii.eqb c sep); [discriminate|].
  destruct (Split s sep); discriminate.
Qed.

Lemma joinSegments_Split (s : string) (sep : ascii) : joinSegments (Split s sep) sep = s.
Proof.
  induction s as [|c s IH]; simpl; [reflexivity|].
  pose proof (Split_not_nil s sep) as Hne.
  destruct (Ascii.eqb_spec c sep) as [->|Hc].
  - destruct (Split s sep) as [|seg rest]; [contradiction|].
    change (joinSegments ("" :: seg :: rest) sep)
      with (String sep (joinSegments (seg :: rest) sep)).
    rewrite IH. reflexivity.
  - destruct (Split s sep) as [|seg rest]; [contradiction|].
    destruct rest as [|seg' rest]; simpl in IH |- *; rewrite <- IH; reflexivity.
Qed.

Lemma Split_segments (s : string) (sep : ascii) :
  Forall (fun segment => Contains segment sep = false) (Split s sep).
Proof.
  induction s as [|c s IH]; simpl; [repeat constructor|].
  destruct (Ascii.eqb c sep) eqn:Hc.
  - constructor; [reflexivity|exact IH].
  - destruct (Split s sep) as [|seg rest]; [repeat constructor; simpl; rewrite Hc; reflexivity|].
    inversion IH; subst. constructor; [simpl; rewrite Hc; assumption|assumption].
Qed.

(** What the parser accepts, it accepts as the join of its parts. *)
Lemma ParseNICFipTerraformID_inv (s id1 id2 id3 : string) :
  ParseNICFipTerraformID s = (id1, id2, id3, None) ->
  MakeTerraformNICFipID id1 id2 id3 = s
  /\ (id1 <> "" /\ id2 <> "" /\ id3 <> "")
  /\ (Contains id1 "/" = false /\ Contains id2 "/" = false /\ Contains id3 "/" = false).
Proof.
  unfold ParseNICFipTerraformID.
  pose proof (joinSegments_Split s "/") as Hjoin.
  pose proof (Split_segments s "/") as Hclean.
  destruct (decide (length (Split s "/") <> 3%nat)) as [|Hlen]; [discriminate|].
  destruct (decide _) as [|Hne]; [discriminate|].
  destruct (Split s "/") as [|s0 [|s1 [|s2 [|]]]]; simpl in Hlen; try lia.
  simpl in Hne |- *. intros [= <- <- <-].
  split; [exact Hjoin|]. split; [intuition|].
  inversion Hclean as [|? ? H0 Hrest]; subst. inversion Hrest as [|? ? H1 Hrest']; subst.
  inversion Hrest' as [|? ? H2 _]; subst. auto.
Qed.

(** X1. An identifier the parser accepts is the join of the three
    parts it returns: building the identifier again from them gives the
    string that was parsed, and each part is non-empty and free of the
    separator. *)
Theorem ParseNICFipTerraformID_sound (s id1 id2 id3 : string) :
  ParseNICFipTerraformID s = (id1, id2, id3, None) ->
  MakeTerraformNICFipID id1 id2 id3 = s
  /\ (id1 <> "" /\ id2 <> "" /\ id3 <> "")
  /\ (Contains id1 "/" = false /\ Contains id2 "/" = false /\ Contains id3 "/" = false).
Proof. exact (ParseNICFipTerraformID_inv s id1 id2 id3). Qed.

Lemma ParseNICFipTerraformID_sound_witness :
  MakeTerraformNICFipID "bms-1" "nic-2" "fip-3" = "bms-1/nic-2/fip-3"
  /\ ("bms-1" <> "" /\ "nic-2" <> "" /\ "fip-3" <> "")
  /\ (Contains "bms-1" "/" = false /\ Contains "nic-2" "/" = false
      /\ Contains "fip-3" "/" = false).
Proof.
  apply (ParseNICFipTerraformID_sound "bms-1/nic-2/fip-3" "bms-1" "nic-2" "fip-3").
  reflexivity.
Defined.

(** ** Validation, rule by rule *)

(** X2. The validation of a list of rules followed by another is the
    validation of the first list and, only when that returns nil, the
    validation of the second: the first error or panic ends it, and no
    rule after the offending one is looked at. *)
Theorem validateInlineRules_app (rules1 rules2 : list Value) :
  validateInlineRules (rules1 ++ rules2)
  = match validateInlineRules rules1 with
    | Ret None => validateInlineRules rules2
    | outcome => outcome
    end.
Proof.
  induction rules1 as [|rule rules1 IH]; [reflexivity|].
  simpl app. cbn [validateInlineRules].
  repeat first
    [ reflexivity
    | exact IH
    | match goal with
      | |- context [bindR ?r _] => destruct r; cbn [bindR]
      | |- context [if ?b then _ else _] => destruct b
      end ].
Qed.

(** X3. On rules of the schema, an error of the validation names the
    first rule that is not valid: the rules before it are valid, and
    the error is the one about the action when the action of that rule
    is neither allow nor deny, whatever its sub-blocks, and the one
    about the sub-blocks otherwise. *)
Theorem validateInlineRules_first_offence (rules : list Value) (e : error) :
  Forall (fun rule => schemaRule rule = true) rules ->
  validateInlineRules rules = Ret (Some e) ->
  exists before rule after,
    rules = before ++ rule :: after
    /\ Forall validRule before
    /\ ((actionOf rule <> "allow" /\ actionOf rule <> "deny"
         /\ e = Errorf "[ERROR] Invalid action. valid values are allow|deny")
        \/
        ((actionOf rule = "allow" \/ actionOf rule = "deny")
         /\ (1 < populatedBlocks rule)%nat
         /\ e = Errorf "Only one of icmp|tcp|udp can be defined per rule")).
Proof.
  induction 1 as [|rule rest Hrule _ IH]; [discriminate|].
  rewrite (validateInlineRules_cons _ _ Hrule).
  destruct (String.eqb_spec (actionOf rule) "allow") as [Ea|Ea];
    destruct (String.eqb_spec (actionOf rule) "deny") as [Ed|Ed]; cbn [negb andb].
  4: { intros [= <-]. exists [], rule, rest. split; [reflexivity|]. split; [constructor|].
       left. auto. }
  all: destruct (Nat.ltb_spec 1 (populatedBlocks rule)) as [Hp|Hp].
  all: try (intros [= <-]; exists [], rule, rest; split; [reflexivity|]; split; [constructor|];
            right; auto).
  all: intros Hrest; destruct (IH Hrest) as (before & rule' & after & -> & Hbefore & Hcase);
    exists (rule :: before), rule', after; split; [reflexivity|];
    split; [constructor; [split; [auto|lia]|exact Hbefore]|exact Hcase].
Qed.

Lemma validateInlineRules_first_offence_witness :
  exists before rule after,
    [Testbed.sshRule; Testbed.conflictingRule; Testbed.pingRule] = before ++ rule :: after
    /\ Forall validRule before
    /\ ((actionOf rule <> "allow" /\ actionOf rule <> "deny"
         /\ Errorf "Only one of icmp|tcp|udp can be defined per rule"
            = Errorf "[ERROR] Invalid action. valid values are allow|deny")
        \/
        ((actionOf rule = "allow" \/ actionOf rule = "deny")
         /\ (1 < populatedBlocks rule)%nat
         /\ Errorf "Only one of icmp|tcp|udp can be defined per rule"
            = Errorf "Only one of icmp|tcp|udp can be defined per rule")).
Proof.
  apply (validateInlineRules_first_offence
           [Testbed.sshRule; Testbed.conflictingRule; Testbed.pingRule]).
  - repeat constructor; vm_compute; reflexivity.
  - vm_compute. reflexivity.
Defined.

(** ** The prototype of a rule *)

Lemma ruleTemplate_fields (before : string) (rule : Value)
  (template : NetworkACLRulePrototype.t) :
  ruleTemplate before rule = Ret template ->
  NetworkACLRulePrototype.Protocol template = Some (protocolOf rule)
  /\ NetworkACLRulePrototype.Action template = actionOf rule
  /\ NetworkACLRulePrototype.Before template
     = (if decide (before = "") then None else Some before)
  /\ (protocolOf rule <> "icmp" ->
      NetworkACLRulePrototype.Type_ template = None
      /\ NetworkACLRulePrototype.Code template = None)
  /\ (protocolOf rule = "icmp" \/ protocolOf rule = "all" ->
      NetworkACLRulePrototype.DestinationPortMin template = None
      /\ NetworkACLRulePrototype.DestinationPortMax template = None
      /\ NetworkACLRulePrototype.SourcePortMin template = None
      /\ NetworkACLRulePrototype.SourcePortMax template = None).
Proof.
  unfold ruleTemplate, protocolOf, actionOf, blockOf.
  destruct rule as [| | | | |m]; cbn [asMap bindR]; try discriminate. unfold Go.index.
  destruct (m !! isNetworkACLRuleName) as [[]|]; cbn [asString bindR]; try discriminate.
  destruct (m !! isNetworkACLRuleSource) as [[]|]; cbn [asString bindR]; try discriminate.
  destruct (m !! isNetworkACLRuleDestination) as [[]|]; cbn [asString bindR]; try discriminate.
  destruct (m !! isNetworkACLRuleAction) as [[]|]; cbn [asString bindR]; try discriminate.
  destruct (m !! isNetworkACLRuleDirection) as [[]|]; cbn [asString bindR]; try discriminate.
  destruct (m !! isNetworkACLRuleICMP) as [[| | | |icmp|]|]; cbn [asList bindR];
    try discriminate.
  destruct (m !! isNetworkACLRuleTCP) as [[| | | |tcp|]|]; cbn [asList bindR];
    try discriminate.
  destruct (m !! isNetworkACLRuleUDP) as [[| | | |udp|]|]; cbn [asList bindR];
    try discriminate.
  destruct (nonEmpty icmp); [|destruct (nonEmpty tcp); [|destruct (nonEmpty udp)]].
  all: repeat match goal with
         | |- context [bindR ?r _] => destruct r; cbn [bindR]; try discriminate
         | |- context [if negb ?b then _ else _] => destruct b; cbn [negb]
         end.
  all: intros [= <-]; cbn; repeat split; intros; try reflexivity; try congruence;
    intuition congruence.
Qed.

Lemma ruleTemplate_before (rule : Value) (template : NetworkACLRulePrototype.t) :
  ruleTemplate "" rule = Ret template -> NetworkACLRulePrototype.Before template = None.
Proof. intros Htemplate. apply (ruleTemplate_fields "" rule template Htemplate). Qed.

(** X4. The prototype built from a rule carries the protocol of the
    first populated sub-block, icmp before tcp before udp, and all when
    none is populated; it carries the action of the rule, a type and a
    code only for icmp, ports only for tcp and udp, and a rule to be
    placed before only when one is given. *)
Theorem ruleTemplate_protocol (before : string) (rule : Value)
  (template : NetworkACLRulePrototype.t) :
  ruleTemplate before rule = Ret template ->
  NetworkACLRulePrototype.Protocol template = Some (protocolOf rule)
  /\ NetworkACLRulePrototype.Action template = actionOf rule
  /\ NetworkACLRulePrototype.Before template
     = (if decide (before = "") then None else Some before)
  /\ (protocolOf rule <> "icmp" ->
      NetworkACLRulePrototype.Type_ template = None
      /\ NetworkACLRulePrototype.Code template = None)
  /\ (protocolOf rule = "icmp" \/ protocolOf rule = "all" ->
      NetworkACLRulePrototype.DestinationPortMin template = None
      /\ NetworkACLRulePrototype.DestinationPortMax template = None
      /\ NetworkACLRulePrototype.SourcePortMin template = None
      /\ NetworkACLRulePrototype.SourcePortMax template = None).
Proof. exact (ruleTemplate_fields before rule template). Qed.

Lemma ruleTemplate_protocol_witness :
  NetworkACLRulePrototype.Protocol
    (Testbed.prototype "both" "allow" "inbound" "icmp" None None None None)
  = Some (protocolOf Testbed.conflictingRule)
  /\ protocolOf Testbed.conflictingRule = "icmp".
Proof.
  split; [|reflexivity].
  apply (ruleTemplate_protocol "" Testbed.conflictingRule
           (Testbed.prototype "both" "allow" "inbound" "icmp" None None None None)).
  vm_compute. reflexivity.
Defined.

(** ** The rules as the read flattens them *)

(** X5. The map [nwaclGet] builds for a listed rule carries the action
    of the rule and populates the sub-block of the rule's protocol and
    no other: one icmp entry for an ICMP rule, one tcp or udp entry for
    a TCP/UDP rule, none for a rule of all protocols. A TCP/UDP rule
    whose protocol is neither tcp nor udp is stored without any of the
    three sub-blocks. *)
Theorem ruleItemToMap_one_block (subnets : nat) (item : NetworkACLRuleItem) :
  (knownProtocol item ->
   protocolOf (ruleItemToMap subnets item) = protocolOfItem item
   /\ (populatedBlocks (ruleItemToMap subnets item) <= 1)%nat
   /\ actionOf (ruleItemToMap subnets item) = NetworkACLRule.Action (ruleOf item))
  /\
  (~ knownProtocol item ->
   exists m,
     ruleItemToMap subnets item = VMap m
     /\ m !! isNetworkACLRuleICMP = None
     /\ m !! isNetworkACLRuleTCP = None
     /\ m !! isNetworkACLRuleUDP = None).
Proof.
  split.
  - destruct item as [rule [code|] [type|]|rule protocol smax smin dmax dmin|rule]; simpl.
    5: intros [-> | ->].
    all: intros; split; [vm_compute; reflexivity|]; split; [vm_compute; lia|];
      vm_compute; reflexivity.
  - destruct item as [rule code type|rule protocol smax smin dmax dmin|rule]; simpl;
      try (intros Hno; exfalso; exact (Hno I)).
    intros Hno. destruct (decide (protocol = "tcp")) as [->|_]; [exfalso; auto|].
    destruct (decide (protocol = "udp")) as [->|_]; [exfalso; auto|].
    eexists. split; [reflexivity|]. repeat split; vm_compute; reflexivity.
Qed.

Lemma ruleItemToMap_one_block_witness :
  (protocolOf (ruleItemToMap 2
                 (NetworkACLRuleItemNetworkACLRuleProtocolTcpudp (Testbed.rule "r3") "tcp"
                    None None (Some 22%Z) (Some 22%Z))) = "tcp"
   /\ (populatedBlocks (ruleItemToMap 2
                          (NetworkACLRuleItemNetworkACLRuleProtocolTcpudp (Testbed.rule "r3")
                             "tcp" None None (Some 22%Z) (Some 22%Z))) <= 1)%nat
   /\ actionOf (ruleItemToMap 2
                  (NetworkACLRuleItemNetworkACLRuleProtocolTcpudp (Testbed.rule "r3") "tcp"
                     None None (Some 22%Z) (Some 22%Z))) = "allow")
  /\
  exists m,
    ruleItemToMap 2
      (NetworkACLRuleItemNetworkACLRuleProtocolTcpudp (Testbed.rule "r4") "sctp"
         None None None None) = VMap m
    /\ m !! isNetworkACLRuleICMP = None
    /\ m !! isNetworkACLRuleTCP = None
    /\ m !! isNetworkACLRuleUDP = None.
Proof.
  split.
  - apply (proj1 (ruleItemToMap_one_block 2
                    (NetworkACLRuleItemNetworkACLRuleProtocolTcpudp (Testbed.rule "r3") "tcp"
                       None None (Some 22%Z) (Some 22%Z)))).
    simpl. auto.
  - apply (proj2 (ruleItemToMap_one_block 2
                    (NetworkACLRuleItemNetworkACLRuleProtocolTcpudp (Testbed.rule "r4") "sctp"
                       None None None None))).
    simpl. intros [E|E]; discriminate E.
Defined.

(** ** What the rule helpers call *)

Section Rule_calls.

Context `{Collaborators}.

(** X6. [createInlineRules] does nothing but create rules of the ACL
    it is given: what it adds to the trace is a sequence of create
    calls on that ACL, at most one per rule, and none of the prototypes
    names a rule to be placed before, so that every rule is appended. *)
Theorem createInlineRules_only_creates (nwaclid : string) (rules : list Value) (w : World) :
  exists templates,
    snd (createInlineRules nwaclid rules w) = extend (createCalls nwaclid templates) w
    /\ (length templates <= length rules)%nat
    /\ Forall (fun template => NetworkACLRulePrototype.Before template = None) templates.
Proof.
  unfold createInlineRules. revert w.
  induction rules as [|rule rules IH]; intros w.
  - exists []. simpl. rewrite extend_nil. repeat split; [lia|constructor].
  - cbn [createInlineRules_loop]. unfold bindM at 1, lift at 1.
    destruct (ruleTemplate "" rule) as [template|msg|] eqn:Htemplate;
      [|exists []; simpl; rewrite extend_nil; repeat split; [lia|constructor]..].
    unfold bindM at 1. rewrite call_run.
    destruct (sdk (trace w) _) as [[result response] [e|]].
    + exists [template]. simpl. repeat split; [lia|].
      constructor; [exact (ruleTemplate_before _ _ Htemplate)|constructor].
    + destruct (IH (record (EvCall (CreateNetworkACLRule
                                      (createNetworkAclRuleOptions nwaclid template))) w))
        as (templates & Hrun & Hlen & Hbefore).
      exists (template :: templates). rewrite Hrun, extend_record.
      repeat split; [simpl; lia|].
      constructor; [exact (ruleTemplate_before _ _ Htemplate)|exact Hbefore].
Qed.

Lemma clearRules_pages_clearing (nwaclid : string) (fuel : nat) :
  forall (start : string) (allrecs : list NetworkACLRuleItem) (w : World),
  exists events,
    snd (clearRules_pages fuel nwaclid start allrecs w) = extend events w
    /\ Forall (isRuleClearing nwaclid) events.
Proof.
  induction fuel as [|fuel IH]; intros start allrecs w.
  - exists []. simpl. rewrite extend_nil. split; [reflexivity|constructor].
  - cbn [clearRules_pages]. unfold bindM at 1. rewrite call_run.
    destruct (sdk (trace w) _) as [[[collection|] response] [e|]]; cbn.
    all: try (eexists (_ :: nil); split; [reflexivity|repeat constructor]).
    destruct (decide _).
    + eexists (_ :: nil); split; [reflexivity|repeat constructor].
    + destruct (IH (GetNext (NetworkACLRuleCollection.Next collection))
                  (allrecs ++ NetworkACLRuleCollection.Rules collection)
                  (record (EvCall (ListNetworkACLRules
                                     (listNetworkAclRulesOptions nwaclid start))) w))
        as (events & Hrun & Hclearing).
      eexists (_ :: events). rewrite Hrun, extend_record. split; [reflexivity|].
      constructor; [reflexivity|exact Hclearing].
Qed.

Lemma clearRules_delete_clearing (nwaclid : string) (rules : list NetworkACLRuleItem) :
  forall w : World,
  exists events,
    snd (clearRules_delete nwaclid rules w) = extend events w
    /\ Forall (isRuleClearing nwaclid) events.
Proof.
  induction rules as [|rule rules IH]; intros w.
  - exists []. simpl. rewrite extend_nil. split; [reflexivity|constructor].
  - cbn [clearRules_delete]. unfold bindM at 1. rewrite call_run.
    destruct (sdk (trace w) _) as [response [e|]]; cbn.
    + eexists (_ :: nil); split; [reflexivity|repeat constructor].
    + destruct (IH (record (EvCall (DeleteNetworkACLRule
                                      (deleteNetworkAclRuleOptions nwaclid rule))) w))
        as (events & Hrun & Hclearing).
      eexists (_ :: events). rewrite Hrun, extend_record. split; [reflexivity|].
      constructor; [reflexivity|exact Hclearing].
Qed.

(** X7. [clearRules] does nothing but list and delete rules of the
    ACL it is given, whatever the remote side answers and however the
    run ends: it creates nothing, touches no other ACL and leaves the
    resource data alone. *)
Theorem clearRules_only_clears (fuel : nat) (nwaclid : string) (w : World) :
  exists events,
    snd (clearRules fuel nwaclid w) = extend events w
    /\ Forall (isRuleClearing nwaclid) events.
Proof.
  unfold clearRules, bindM.
  destruct (clearRules_pages_clearing nwaclid fuel "" [] w) as (events & Hrun & Hclearing).
  destruct (clearRules_pages fuel nwaclid "" [] w) as [[[allrecs|e]|msg|] w1];
    simpl in Hrun; subst w1; try (exists events; split; [reflexivity|exact Hclearing]).
  destruct (clearRules_delete_clearing nwaclid allrecs (extend events w))
    as (events' & Hrun' & Hclearing').
  exists (events ++ events'). rewrite Hrun', extend_extend. split; [reflexivity|].
  apply Forall_app. split; assumption.
Qed.

End Rule_calls.
